(** * FTAM file-transfer protocol: the server's session engine and the
      client's resumable upload driver

    A shallow embedding of [src/Serveur.py] and [src/Client.py].

    Conventions of the model.
    - Text.  A Python [str] is represented by its UTF-8 bytes, the form in
      which it crosses the socket, as a Rocq [string].  [split], [strip],
      [upper], [int] and [bytes.fromhex] are Python's on ASCII text; a byte
      above 127 is an ordinary character that is neither a space, a digit nor
      a cased letter.
    - Storage.  The file system is a table from path strings to inodes and a
      table from inodes to contents (POSIX: an open handle follows its inode,
      not its name).  A path is one key: [a] and [./a] are different keys.
    - Environment.  The one operating-system call a handler guards with
      [try/except] either succeeds or raises; the handlers receive that
      verdict as an argument ([None]: success, [Some e]: an exception whose
      text is [e]).  A failing call leaves the disk as it was. *)

From stdpp Require Import gmap strings list pretty.
From Stdlib.Strings Require Import Ascii Byte.

Local Open Scope string_scope.
Local Open Scope list_scope.

(** ** Python's built-ins used by the program *)

Module Py.

(** [str.isspace] on ASCII: TAB, LF, VT, FF, CR, FS, GS, RS, US and space.
    This is the set [str.split()] and [str.strip()] cut on. *)
Definition isspace (c : ascii) : bool :=
  let n := N_of_ascii c in
  ((9 <=? n) && (n <=? 13) || (28 <=? n) && (n <=? 32))%N.

(** C's [Py_ISSPACE]: the set [int()] and [bytes.fromhex] skip. *)
Definition c_isspace (c : ascii) : bool :=
  let n := N_of_ascii c in
  ((9 <=? n) && (n <=? 13) || (n =? 32))%N.

Definition upper_char (c : ascii) : ascii :=
  let n := N_of_ascii c in
  if ((97 <=? n) && (n <=? 122))%N then ascii_of_N (n - 32) else c.

(** [s.upper()] *)
Fixpoint upper (s : string) : string :=
  match s with
  | "" => ""
  | String c s' => String (upper_char c) (upper s')
  end.

(** Does [s] begin with a character that is not a space? *)
Definition starts_word (s : string) : bool :=
  match s with
  | "" => false
  | String c _ => negb (isspace c)
  end.

(** [s.split()]: the maximal runs of non-space characters, in order. *)
Fixpoint split (s : string) : list string :=
  match s with
  | "" => []
  | String c s' =>
      if isspace c then split s'
      else if starts_word s' then
        match split s' with
        | w :: ws => String c w :: ws
        | [] => [String c ""]
        end
      else String c "" :: split s'
  end.

Section Strip.
Variable sp : ascii -> bool.

Fixpoint lstrip_by (s : string) : string :=
  match s with
  | "" => ""
  | String c s' => if sp c then lstrip_by s' else s
  end.

Fixpoint rstrip_by (s : string) : string :=
  match s with
  | "" => ""
  | String c s' =>
      match rstrip_by s' with
      | "" => if sp c then "" else String c ""
      | r => String c r
      end
  end.

Definition strip_by (s : string) : string := rstrip_by (lstrip_by s).
End Strip.

(** [s.strip()] *)
Definition strip : string -> string := strip_by isspace.

(** [s.startswith(p)] *)
Definition startswith (s p : string) : bool := String.prefix p s.

(** [sep.join(l)] *)
Definition join (sep : string) (l : list string) : string := String.concat sep l.

(** [p in s] for strings *)
Fixpoint contains (s p : string) : bool :=
  String.prefix p s ||
  match s with
  | "" => false
  | String _ s' => contains s' p
  end.

(** [s.split(sep)] cut at the first occurrence only: the text before it and
    the text after it, or [None] when [sep] does not occur. *)
Fixpoint cut (sep : string) (s : string) : option (string * string) :=
  if String.prefix sep s then
    Some ("", String.substring (String.length sep)
                (String.length s - String.length sep) s)
  else
    match s with
    | "" => None
    | String c s' =>
        match cut sep s' with
        | Some (a, b) => Some (String c a, b)
        | None => None
        end
    end.

(** [s.split(sep)[1]] for a non-empty [sep]: the text between the first
    occurrence of [sep] and the next one (or the end); [None] stands for the
    [IndexError] raised when [sep] does not occur. *)
Definition split_at_1 (sep s : string) : option string :=
  match cut sep s with
  | None => None
  | Some (_, rest) =>
      match cut sep rest with
      | None => Some rest
      | Some (mid, _) => Some mid
      end
  end.

Definition digit_val (c : ascii) : option Z :=
  let n := N_of_ascii c in
  if ((48 <=? n) && (n <=? 57))%N then Some (Z.of_N (n - 48)) else None.

(** The digits of a decimal literal; a single underscore may separate two
    digits.  [prev] tells whether the previous character was a digit. *)
Fixpoint int_digits (s : string) (acc : Z) (prev : bool) : option Z :=
  match s with
  | "" => if prev then Some acc else None
  | String c s' =>
      match digit_val c with
      | Some v => int_digits s' (10 * acc + v) true
      | None =>
          if (c =? "_")%char && prev then int_digits s' acc false else None
      end
  end.

(** [int(s)]: surrounding blanks, an optional sign, digits.  [None] stands
    for [ValueError]. *)
Definition int (s : string) : option Z :=
  match strip_by c_isspace s with
  | String "+" t => int_digits t 0 false
  | String "-" t => Z.opp <$> int_digits t 0 false
  | t => int_digits t 0 false
  end.

(** [_PyLong_DigitValue] restricted to hexadecimal digits. *)
Definition hexval (c : ascii) : option N :=
  let n := N_of_ascii c in
  if ((48 <=? n) && (n <=? 57))%N then Some (n - 48)%N
  else if ((97 <=? n) && (n <=? 102))%N then Some (n - 87)%N
  else if ((65 <=? n) && (n <=? 70))%N then Some (n - 55)%N
  else None.

Definition byte_of_nibbles (top bot : N) : byte :=
  default x00 (Byte.of_N (16 * top + bot)).

(** The index of the first byte above 127, if any. *)
Fixpoint first_non_ascii (s : string) (pos : nat) : option nat :=
  match s with
  | "" => None
  | String c s' =>
      if (128 <=? N_of_ascii c)%N then Some pos else first_non_ascii s' (S pos)
  end.

(** The scanning loop of [bytes.fromhex]: blanks are skipped between bytes,
    never inside one.  [inl pos] is the position named by the [ValueError]. *)
Fixpoint fromhex_scan (s : string) (pos : nat) : nat + list byte :=
  match s with
  | "" => inr []
  | String c s' =>
      if c_isspace c then fromhex_scan s' (S pos)
      else
        match hexval c with
        | None => inl pos
        | Some top =>
            match s' with
            | "" => inl (S pos)
            | String c' s'' =>
                match hexval c' with
                | None => inl (S pos)
                | Some bot =>
                    match fromhex_scan s'' (S (S pos)) with
                    | inl e => inl e
                    | inr bs => inr (byte_of_nibbles top bot :: bs)
                    end
                end
            end
        end
  end.

(** [bytes.fromhex(s)]; the error is [str(e)] of the [ValueError]. *)
Definition fromhex (s : string) : string + list byte :=
  let err (pos : nat) : string :=
    "non-hexadecimal number found in fromhex() arg at position " +:+ pretty pos in
  match first_non_ascii s 0 with
  | Some pos => inl (err pos)
  | None =>
      match fromhex_scan s 0 with
      | inl pos => inl (err pos)
      | inr bs => inr bs
      end
  end.

Definition hex_digit (n : N) : ascii :=
  if (n <? 10)%N then ascii_of_N (48 + n) else ascii_of_N (87 + n).

(** [b.hex()]: two lowercase digits per byte. *)
Fixpoint hex (bs : list byte) : string :=
  match bs with
  | [] => ""
  | b :: bs' =>
      let n := Byte.to_N b in
      String (hex_digit (n / 16)) (String (hex_digit (n mod 16)) (hex bs'))
  end.

(** The loop [while True: chunk = f.read(size); if not chunk: break], from
    the bytes that lie after the cursor: blocks of [size] bytes until a read
    returns nothing.  Every turn consumes a byte at least, so [fuel] turns
    are enough when [fuel] is the number of bytes. *)
Fixpoint read_loop (size fuel : nat) (data : list byte) : list (list byte) :=
  match fuel with
  | 0 => []
  | S fuel' =>
      match take size data with
      | [] => []
      | chunk => chunk :: read_loop size fuel' (drop size data)
      end
  end.

Definition read_blocks (size : nat) (data : list byte) : list (list byte) :=
  read_loop size (length data) data.

(** [f.seek(offset)] on a file opened for reading: [None] when the cursor
    moves, else [str(e)] of the exception.  A negative offset is refused by
    the system, one of 2^63 or more does not fit a file offset.  (The limit a
    file system sets below 2^63 is for the environment to tell.) *)
Definition seek_error (offset : Z) : option string :=
  if (offset <? 0)%Z then Some "[Errno 22] Invalid argument"
  else if (2 ^ 63 <=? offset)%Z then Some "cannot fit 'int' into an offset-sized integer"
  else None.

(** [os.path.join(a, b)] of [posixpath]. *)
Definition os_path_join (a b : string) : string :=
  if String.prefix "/" b then b
  else if (a =? "")%string || String.prefix "/" (String.rev a) then a +:+ b
  else a +:+ "/" +:+ b.

(** The text a file written in text mode holds for [s], and back. *)
Definition encode (s : string) : list byte := String.list_byte_of_string s.
Definition decode (bs : list byte) : string := String.string_of_list_byte bs.

(** The first word of a text that begins with one, and the text after it. *)
Fixpoint word_and_rest (s : string) : string * string :=
  match s with
  | "" => ("", "")
  | String c s' =>
      if isspace c then ("", s)
      else let '(w, r) := word_and_rest s' in (String c w, r)
  end.

(** [s.split(maxsplit=1)]: the first word and, when something other than
    blanks follows it, the text from there to the end, trailing blanks
    included. *)
Definition split_maxsplit_1 (s : string) : list string :=
  match lstrip_by isspace s with
  | "" => []
  | t =>
      let '(w, r) := word_and_rest t in
      match lstrip_by isspace r with
      | "" => [w]
      | rest => [w; rest]
      end
  end.

(** The lines [readline] returns from a text stream opened with the default
    newline handling: a line ends at LF, at CR LF or at CR, and its end is
    given as LF.  A last line without end is returned as it is. *)
Fixpoint text_lines (s : string) : list string :=
  match s with
  | "" => []
  | String c s' =>
      if (c =? "010")%char then String "010" "" :: text_lines s'
      else if (c =? "013")%char then
        match s' with
        | String "010" _ => text_lines s'
        | _ => String "010" "" :: text_lines s'
        end
      else
        match text_lines s' with
        | l :: ls => String c l :: ls
        | [] => [String c ""]
        end
  end.

(** The first [n] bytes of a text, and what follows them. *)
Fixpoint take_bytes (n : nat) (s : string) : string :=
  match n, s with
  | S n', String c s' => String c (take_bytes n' s')
  | _, _ => ""
  end.

Fixpoint drop_bytes (n : nat) (s : string) : string :=
  match n, s with
  | S n', String _ s' => drop_bytes n' s'
  | _, _ => s
  end.

(** A byte that continues a UTF-8 character: 10xxxxxx. *)
Definition is_continuation (c : ascii) : bool :=
  let n := N_of_ascii c in ((128 <=? n) && (n <? 192))%N.

(** [b.decode()] of the bytes a [recv] returned, [rest] being the bytes that
    follow them in a stream of UTF-8 text: the bytes are a text unless the
    cut before them or after them falls inside a character.  [None] stands
    for the [UnicodeDecodeError]. *)
Definition decode_received (got rest : string) : option string :=
  let cut_before := match got with String c _ => is_continuation c | "" => false end in
  let cut_after := match rest with String c _ => is_continuation c | "" => false end in
  if cut_before || cut_after then None else Some got.

End Py.

(** ** The server: [src/Serveur.py] *)

Module Serveur.

Definition nl : string := String "010"%char "".

(** Taille du bloc de transfert *)
Definition BLOCK_SIZE : nat := 512.

(** *** Storage *)

Record disk := {
  dir : gmap string nat;          (* path -> inode *)
  inodes : gmap nat (list byte)   (* inode -> content *)
}.

(** An open binary file object: the inode it is bound to, whether it was
    opened for append, and its position. *)
Record handle := {
  h_ino : nat;
  h_append : bool;
  h_pos : nat
}.

Inductive mode := W | A.

Definition content (d : disk) (i : nat) : list byte :=
  default [] (inodes d !! i).

(** [os.path.exists(path)] *)
Definition path_exists (d : disk) (path : string) : bool :=
  match dir d !! path with Some _ => true | None => false end.

(** [os.path.getsize(path)] of an existing file *)
Definition getsize (d : disk) (path : string) : nat :=
  match dir d !! path with Some i => length (content d i) | None => 0 end.

(** The bytes stored under [path]. *)
Definition read_file (d : disk) (path : string) : option (list byte) :=
  match dir d !! path with Some i => Some (content d i) | None => None end.

Definition put (d : disk) (i : nat) (bs : list byte) : disk :=
  {| dir := dir d; inodes := <[i := bs]> (inodes d) |}.

(** [open(path, 'w' | 'wb' | 'a' | 'ab')]: the file is created when absent
    and, in mode [W], emptied when present. *)
Definition open_for_write (d : disk) (path : string) (m : mode) : disk * handle :=
  match dir d !! path with
  | Some i =>
      match m with
      | W => (put d i [], {| h_ino := i; h_append := false; h_pos := 0 |})
      | A => (d, {| h_ino := i; h_append := true; h_pos := length (content d i) |})
      end
  | None =>
      let i := fresh (dom (inodes d)) in
      ({| dir := <[path := i]> (dir d); inodes := <[i := []]> (inodes d) |},
       {| h_ino := i; h_append := match m with A => true | W => false end; h_pos := 0 |})
  end.

(** Writing [data] at position [pos] of [old]; a gap is filled with zeros. *)
Definition write_at (pos : nat) (old data : list byte) : list byte :=
  take pos (old ++ replicate (pos - length old) x00) ++ data
    ++ drop (pos + length data) old.

(** [f.write(data); f.flush()]: an append handle writes at the end of the
    file, another one at its position. *)
Definition file_write (d : disk) (f : handle) (data : list byte) : disk * handle :=
  let old := content d (h_ino f) in
  if h_append f then
    (put d (h_ino f) (old ++ data),
     {| h_ino := h_ino f; h_append := true; h_pos := length old + length data |})
  else
    (put d (h_ino f) (write_at (h_pos f) old data),
     {| h_ino := h_ino f; h_append := false; h_pos := h_pos f + length data |}).

(** [os.rename(old, new)] *)
Definition rename (d : disk) (old new : string) : disk :=
  match dir d !! old with
  | Some i => {| dir := <[new := i]> (delete old (dir d)); inodes := inodes d |}
  | None => d
  end.

(** [os.remove(path)] *)
Definition remove (d : disk) (path : string) : disk :=
  {| dir := delete path (dir d); inodes := inodes d |}.

(** Reading in text mode turns CR LF and CR into LF. *)
Fixpoint universal_newlines (s : string) : string :=
  match s with
  | "" => ""
  | String c s' =>
      if (c =? "013")%char then
        match s' with
        | String "010" _ => universal_newlines s'
        | _ => String "010" (universal_newlines s')
        end
      else String c (universal_newlines s')
  end.

(** [str(e)] of the [FileNotFoundError] raised by [open(path)], for a path
    of printable ASCII characters without quote or backslash. *)
Definition enoent (path : string) : string :=
  "[Errno 2] No such file or directory: '" +:+ path +:+ "'".

Fixpoint strip_prefix (p s : string) : option string :=
  match p, s with
  | "", _ => Some s
  | String a p', String b s' => if (a =? b)%char then strip_prefix p' s' else None
  | String _ _, "" => None
  end.

(** *** Session state *)

Inductive Phase := ASSOCIATED | FILE_OPEN | TRANSFER_IN_PROGRESS.

Record session := {
  open_file : option string;       (* Nom du fichier ouvert *)
  phase : Phase;
  transfer_in_progress : bool;     (* Indique si un transfert est en cours *)
  transfer_offset : nat;           (* Offset courant dans le fichier de transfert *)
  transfer_file : option handle;   (* Fichier ouvert pour le transfert *)
  error_flag : bool;               (* Indique une erreur durant le transfert *)
  error_message : string
}.

(** The state [handle_client] starts every connection with. *)
Definition initial_state : session :=
  {| open_file := None; phase := ASSOCIATED; transfer_in_progress := false;
     transfer_offset := 0; transfer_file := None; error_flag := false;
     error_message := "" |}.

Definition reply : Type := string * session * disk.

Section Handlers.

(** [DEFAULT_DIR = os.path.join(os.getcwd(), "data")]: fixed when the module
    is loaded, from a working directory the program does not choose. *)
Variable DEFAULT_DIR : string.

Definition filepath (filename : string) : string :=
  Py.os_path_join DEFAULT_DIR filename.

(** The name under which [os.listdir(DEFAULT_DIR)] reports the entry stored
    at [path], if [path] is an entry of that directory. *)
Definition entry_name (path : string) : option string :=
  match strip_prefix (filepath "") path with
  | Some name =>
      if (name =? "")%string || Py.contains name "/" then None else Some name
  | None => None
  end.

(** [os.listdir(DEFAULT_DIR)], filtered by [os.path.isfile]: every entry of
    the model is a regular file.  The order is the table's. *)
Definition listdir (d : disk) : list string :=
  omap (fun kv => entry_name (fst kv)) (map_to_list (dir d)).

(** Retourne la liste des fichiers présents dans le répertoire de base. *)
Definition cmd_list (os : option string) (session_state : session)
    (d : disk) : reply :=
  match os with
  | Some e => ("ERREUR: Liste des fichiers impossible: " +:+ e, session_state, d)
  | None =>
      let files := listdir d in
      match files with
      | _ :: _ =>
          let file_list := Py.join nl (map (fun f => "  - " +:+ f) files) in
          let display := "=== Liste des fichiers ===" +:+ nl +:+
                         file_list +:+ nl +:+
                         "===========================" in
          ("LIST_OK" +:+ nl +:+ display, session_state, d)
      | [] =>
          ("LIST_OK" +:+ nl +:+ "=== Liste des fichiers ===" +:+ nl +:+
           "Aucun fichier trouvé." +:+ nl +:+ "===========================",
           session_state, d)
      end
  end.

(** Ouvre un fichier existant. *)
Definition cmd_open (session_state : session) (d : disk)
    (parts : list string) : reply :=
  match open_file session_state with
  | Some _ => ("ERREUR: Un fichier est déjà ouvert", session_state, d)
  | None =>
      match parts with
      | _ :: filename :: _ =>
          if negb (path_exists d (filepath filename)) then
            ("ERREUR: Le fichier '" +:+ filename +:+ "' n'existe pas", session_state, d)
          else
            ("OPEN_OK " +:+ filename,
             {| open_file := Some filename;
                phase := FILE_OPEN;
                transfer_in_progress := transfer_in_progress session_state;
                transfer_offset := transfer_offset session_state;
                transfer_file := transfer_file session_state;
                error_flag := error_flag session_state;
                error_message := error_message session_state |}, d)
      | _ => ("ERREUR: OPEN nécessite un nom de fichier", session_state, d)
      end
  end.

(** Crée un nouveau fichier vide dans le répertoire de base. *)
Definition cmd_create (os : option string) (session_state : session)
    (d : disk) (parts : list string) : reply :=
  match open_file session_state with
  | Some _ => ("ERREUR: Un fichier est déjà ouvert", session_state, d)
  | None =>
      match parts with
      | _ :: filename :: _ =>
          match os with
          | Some e => ("ERREUR: Création du fichier échouée: " +:+ e, session_state, d)
          | None =>
              ("CREATE_OK " +:+ filename,
               {| open_file := Some filename;
                  phase := FILE_OPEN;
                  transfer_in_progress := transfer_in_progress session_state;
                  transfer_offset := transfer_offset session_state;
                  transfer_file := transfer_file session_state;
                  error_flag := error_flag session_state;
                  error_message := error_message session_state |},
               fst (open_for_write d (filepath filename) W))
          end
      | _ => ("ERREUR: CREATE nécessite un nom de fichier", session_state, d)
      end
  end.

(** Renomme un fichier existant. *)
Definition cmd_rename (os : option string) (session_state : session)
    (d : disk) (parts : list string) : reply :=
  match parts with
  | _ :: old_name :: new_name :: _ =>
      if negb (path_exists d (filepath old_name)) then
        ("ERREUR: Le fichier '" +:+ old_name +:+ "' n'existe pas", session_state, d)
      else
        match os with
        | Some e => ("ERREUR: Renommage échoué: " +:+ e, session_state, d)
        | None =>
            ("RENAME_OK " +:+ old_name +:+ " -> " +:+ new_name, session_state,
             rename d (filepath old_name) (filepath new_name))
        end
  | _ => ("ERREUR: RENAME nécessite un ancien et un nouveau nom", session_state, d)
  end.

(** Supprime un fichier existant. *)
Definition cmd_delete (os : option string) (session_state : session)
    (d : disk) (parts : list string) : reply :=
  match parts with
  | _ :: filename :: _ =>
      if negb (path_exists d (filepath filename)) then
        ("ERREUR: Le fichier '" +:+ filename +:+ "' n'existe pas", session_state, d)
      else
        match os with
        | Some e => ("ERREUR: Suppression du fichier échouée: " +:+ e, session_state, d)
        | None => ("DELETE_OK " +:+ filename, session_state, remove d (filepath filename))
        end
  | _ => ("ERREUR: DELETE nécessite un nom de fichier", session_state, d)
  end.

(** Lit le contenu du fichier actuellement ouvert.  A file that is gone
    makes [open] raise; content that is not valid UTF-8 makes [read] raise,
    which is one of the failures [os] stands for. *)
Definition cmd_read (os : option string) (session_state : session)
    (d : disk) : reply :=
  match open_file session_state with
  | None =>
      ("ERREUR: Aucun fichier ouvert. Utilise OPEN ou CREATE d'abord", session_state, d)
  | Some filename =>
      let failed (e : string) : reply :=
        ("ERREUR: Lecture du fichier échouée: " +:+ e, session_state, d) in
      match os, read_file d (filepath filename) with
      | Some e, _ => failed e
      | None, None => failed (enoent (filepath filename))
      | None, Some bs =>
          let content := Py.strip (universal_newlines (Py.decode bs)) in
          let display := "=== Contenu du fichier: " +:+ filename +:+ " ===" +:+ nl +:+
                         content +:+ nl +:+
                         "===============================" in
          ("READ_OK" +:+ nl +:+ display, session_state, d)
      end
  end.

(** Écrit (ajoute) des données dans le fichier actuellement ouvert. *)
Definition cmd_write (os : option string) (session_state : session)
    (d : disk) (parts : list string) : reply :=
  match open_file session_state with
  | None =>
      ("ERREUR: Aucun fichier ouvert. Utilise OPEN ou CREATE d'abord", session_state, d)
  | Some filename =>
      match parts with
      | _ :: data =>
          match data with
          | [] => ("ERREUR: WRITE nécessite des données à écrire", session_state, d)
          | _ :: _ =>
              let filedata := Py.join " " data in
              match os with
              | Some e =>
                  ("ERREUR: Écriture dans le fichier échouée: " +:+ e, session_state, d)
              | None =>
                  let '(d1, f) := open_for_write d (filepath filename) A in
                  ("WRITE_OK " +:+ filename, session_state,
                   fst (file_write d1 f (Py.encode (filedata +:+ nl))))
              end
          end
      | [] => ("ERREUR: WRITE nécessite des données à écrire", session_state, d)
      end
  end.

(** Ferme le fichier actuellement ouvert. *)
Definition cmd_close (session_state : session) (d : disk) : reply :=
  match open_file session_state with
  | None => ("ERREUR: Aucun fichier ouvert à fermer", session_state, d)
  | Some filename =>
      ("CLOSE_OK " +:+ filename,
       {| open_file := None;
          phase := ASSOCIATED;
          transfer_in_progress := transfer_in_progress session_state;
          transfer_offset := transfer_offset session_state;
          transfer_file := transfer_file session_state;
          error_flag := error_flag session_state;
          error_message := error_message session_state |}, d)
  end.

(** Initialise un upload de fichier: mode 'wb' for a new file, 'ab' for an
    existing one, whose size is the offset. *)
Definition cmd_begin_upload (os : option string) (session_state : session)
    (d : disk) (parts : list string) : reply :=
  match parts with
  | _ :: filename :: _ =>
      let '(offset, mode) :=
        if path_exists d (filepath filename)
        then (getsize d (filepath filename), A)
        else (0, W) in
      match os with
      | Some e =>
          ("ERREUR: Ouverture du fichier pour upload échouée: " +:+ e, session_state, d)
      | None =>
          let '(d', f) := open_for_write d (filepath filename) mode in
          let session_state' :=
            {| open_file := open_file session_state;
               phase := TRANSFER_IN_PROGRESS;
               transfer_in_progress := true;
               transfer_offset := offset;
               transfer_file := Some f;
               error_flag := error_flag session_state;
               error_message := error_message session_state |} in
          if (0 <? offset)%nat then
            ("UPLOAD_RESUME " +:+ filename +:+ " offset=" +:+ pretty offset,
             session_state', d')
          else
            ("UPLOAD_READY " +:+ filename +:+ " offset=" +:+ pretty offset,
             session_state', d')
      end
  | _ => ("ERREUR: UPLOAD nécessite un nom de fichier", session_state, d)
  end.

(** The [except] branch of [cmd_upload_data]: the error is recorded, the
    transfer file is left as it is. *)
Definition upload_error (e : string) (session_state : session)
    (d : disk) : reply :=
  ("UPLOAD_ERROR " +:+ e,
   {| open_file := open_file session_state;
      phase := phase session_state;
      transfer_in_progress := transfer_in_progress session_state;
      transfer_offset := transfer_offset session_state;
      transfer_file := transfer_file session_state;
      error_flag := true;
      error_message := e |}, d).

(** Traite l'envoi d'un chunk de données pour l'upload.  A [None] transfer
    file makes [f.write] raise an [AttributeError]. *)
Definition cmd_upload_data (os : option string) (session_state : session)
    (d : disk) (parts : list string) : reply :=
  if negb (transfer_in_progress session_state) then
    ("ERREUR: Aucun upload en cours", session_state, d)
  else
    match parts with
    | _ :: (_ :: _) as data =>
        let data_hex := Py.join " " data in
        match Py.fromhex data_hex with
        | inl e => upload_error e session_state d
        | inr data_bytes =>
            match transfer_file session_state with
            | None =>
                upload_error "'NoneType' object has no attribute 'write'"
                  session_state d
            | Some f =>
                match os with
                | Some e => upload_error e session_state d
                | None =>
                    let '(d', f') := file_write d f data_bytes in
                    let bytes_written := length data_bytes in
                    let offset := transfer_offset session_state + bytes_written in
                    ("UPLOAD_DATA_OK offset=" +:+ pretty offset,
                     {| open_file := open_file session_state;
                        phase := phase session_state;
                        transfer_in_progress := transfer_in_progress session_state;
                        transfer_offset := offset;
                        transfer_file := Some f';
                        error_flag := error_flag session_state;
                        error_message := error_message session_state |}, d')
                end
            end
        end
    | _ => ("ERREUR: UPLOAD_DATA nécessite des données à écrire", session_state, d)
    end.

(** Termine le transfert d'un fichier en upload; [os] is the verdict for
    [close()]. *)
Definition cmd_upload_end (os : option string) (session_state : session)
    (d : disk) : reply :=
  if negb (transfer_in_progress session_state) then
    ("ERREUR: Aucun upload en cours", session_state, d)
  else if error_flag session_state then
    ("UPLOAD_INTERRUPTED", session_state, d)
  else
    let closed :=
      {| open_file := open_file session_state;
         phase := FILE_OPEN;
         transfer_in_progress := false;
         transfer_offset := transfer_offset session_state;
         transfer_file := None;
         error_flag := false;
         error_message := "" |} in
    match transfer_file session_state, os with
    | Some _, Some e => ("ERREUR: Fin de l'upload échouée: " +:+ e, session_state, d)
    | Some _, None => ("UPLOAD_END_OK", closed, d)
    | None, _ => ("UPLOAD_END_OK", closed, d)
    end.

(** Reprend un upload interrompu. *)
Definition cmd_resume_upload (session_state : session) (d : disk) : reply :=
  if negb (error_flag session_state) then
    ("ERREUR: Aucun upload à reprendre", session_state, d)
  else
    match transfer_file session_state with
    | None => ("ERREUR: Fichier de transfert non ouvert", session_state, d)
    | Some _ =>
        ("RESUME_UPLOAD_OK offset=" +:+ pretty (transfer_offset session_state),
         {| open_file := open_file session_state;
            phase := TRANSFER_IN_PROGRESS;
            transfer_in_progress := true;
            transfer_offset := transfer_offset session_state;
            transfer_file := transfer_file session_state;
            error_flag := false;
            error_message := "" |}, d)
    end.

(** Interprète et exécute une commande reçue. *)
Definition gestionnaire_commandes (os : option string) (command : string)
    (session_state : session) (d : disk) : reply :=
  let parts := Py.split command in
  match parts with
  | [] => ("ERREUR: Commande vide", session_state, d)
  | verb :: _ =>
      let cmd := Py.upper verb in
      if (cmd =? "LIST")%string then cmd_list os session_state d
      else if (cmd =? "OPEN")%string then cmd_open session_state d parts
      else if (cmd =? "CREATE")%string then cmd_create os session_state d parts
      else if (cmd =? "RENAME")%string then cmd_rename os session_state d parts
      else if (cmd =? "DELETE")%string then cmd_delete os session_state d parts
      else if (cmd =? "READ")%string then cmd_read os session_state d
      else if (cmd =? "WRITE")%string then cmd_write os session_state d parts
      else if (cmd =? "CLOSE")%string then cmd_close session_state d
      else if (cmd =? "UPLOAD")%string then cmd_begin_upload os session_state d parts
      else if (cmd =? "UPLOAD_DATA")%string then cmd_upload_data os session_state d parts
      else if (cmd =? "UPLOAD_END")%string then cmd_upload_end os session_state d
      else if (cmd =? "RESUME_UPLOAD")%string then cmd_resume_upload session_state d
      else ("ERREUR: Commande non reconnue", session_state, d)
  end.

Definition chunk_line (chunk : list byte) : string :=
  "CHUNK " +:+ Py.hex chunk +:+ nl.

(** [cmd_download]: what is sent on the socket, one element per [sendall].
    [os] is the verdict for opening the file and moving its cursor; the reads
    that follow succeed. *)
Definition cmd_download (os : option string) (command : string)
    (session_state : session) (d : disk) : list string :=
  let parts := Py.split command in
  match parts with
  | _ :: filename :: rest =>
      let parsed : option Z :=
        match rest with
        | [] => Some 0%Z
        | offset :: _ => Py.int offset
        end in
      match parsed with
      | None => ["ERREUR: Offset invalide" +:+ nl]
      | Some offset =>
          if negb (path_exists d (filepath filename)) then
            ["ERREUR: Le fichier '" +:+ filename +:+ "' n'existe pas" +:+ nl]
          else
            let failed (e : string) : list string :=
              ["ERREUR: Téléchargement du fichier échoué: " +:+ e +:+ nl] in
            match os with
            | Some e => failed e
            | None =>
                match Py.seek_error offset with
                | Some e => failed e
                | None =>
                    let data := drop (Z.to_nat offset)
                                  (default [] (read_file d (filepath filename))) in
                    ["DOWNLOAD_READY " +:+ filename +:+ " offset=" +:+ pretty offset +:+ nl]
                    ++ map chunk_line (Py.read_blocks BLOCK_SIZE data)
                    ++ ["DOWNLOAD_END" +:+ nl]
                end
            end
      end
  | _ => ["ERREUR: DOWNLOAD nécessite un nom de fichier" +:+ nl]
  end.

(** One turn of the loop of [handle_client]: the line read from the socket,
    what is sent back, the state and the disk afterwards. *)
Definition handle_line (os : option string) (line : string)
    (session_state : session) (d : disk) : list string * session * disk :=
  let command := Py.strip line in
  if Py.startswith (Py.upper command) "DOWNLOAD" then
    (cmd_download os command session_state d, session_state, d)
  else
    let '(response, session_state', d') :=
      gestionnaire_commandes os command session_state d in
    ([response +:+ nl], session_state', d').

(** The loop itself, over what [readline] returns; an empty string is the
    end of the connection.  Each line comes with the verdict of the operating
    system for it. *)
Fixpoint serve (lines : list (option string * string))
    (session_state : session) (d : disk) : list string * session * disk :=
  match lines with
  | [] => ([], session_state, d)
  | (os, line) :: lines' =>
      if (line =? "")%string then ([], session_state, d)
      else
        let '(out, session_state', d') := handle_line os line session_state d in
        let '(out', session_state'', d'') := serve lines' session_state' d' in
        (out ++ out', session_state'', d'')
  end.

Definition handle_client (lines : list (option string * string)) (d : disk)
    : list string * session * disk :=
  let '(out, session_state, d') := serve lines initial_state d in
  ("FTAM_SERVER: Association établie" :: out, session_state, d').

End Handlers.
End Serveur.

(** ** The client's upload driver: [src/Client.py] *)

Module Client.

Definition BLOCK_SIZE : nat := 512.

Definition max_attempts : nat := 5.

(** [os.path.basename(p)]: what follows the last slash. *)
Fixpoint basename (p : string) : string :=
  match p with
  | "" => ""
  | String c p' => if Py.contains p "/" then basename p' else p
  end.

(** How one turn of the [while attempt < max_attempts] loop ends. *)
Inductive attempt_result :=
  | Uploaded (end_response : string)   (* UPLOAD_END answered: [return] *)
  | Refused (response : string)        (* UPLOAD not accepted: [return] *)
  | Raised.                            (* an exception: [attempt += 1] *)

(** How [upload_file] ends; it returns [None] to its caller in each case and
    tells them apart by what it prints. *)
Inductive outcome :=
  | Success (end_response : string)    (* prints "Upload terminé:" *)
  | InitError (response : string)      (* prints "Erreur lors de l'initiation" *)
  | Failure.                           (* prints "Échec de l'upload" *)

Section Driver.

(** The other end of the socket, with a state of its own: [send_command]
    sends a line and returns the answer received, or raises ([None]). *)
Context {E : Type}.
Variable send_command : string -> E -> option string * E.

(** The client's files: the bytes [open(path, 'rb')] gives access to, or
    [None] when the file cannot be opened. *)
Variable local_files : string -> option (list byte).

Variable DEFAULT_DIR : string.

Definition upload_cmd (remote_filename : string) : string :=
  "UPLOAD " +:+ remote_filename.

Definition data_cmd (chunk : list byte) : string :=
  "UPLOAD_DATA " +:+ Py.hex chunk.

(** [int(response.split("offset=")[1])], [None] for the exception. *)
Definition offset_of (response : string) : option Z :=
  Py.split_at_1 "offset=" response ≫= Py.int.

(** [int(data_response.split("offset=")[1].split()[0])] *)
Definition offset_hint (data_response : string) : option Z :=
  Py.split_at_1 "offset=" data_response ≫= fun s => head (Py.split s) ≫= Py.int.

(** The chunk loop, over the blocks still to be read.  The result tells
    whether the loop ran to its end ([true]) or an exception left it. *)
Fixpoint send_chunks (chunks : list (list byte)) (offset : Z) (e : E)
    : list string * bool * Z * E :=
  match chunks with
  | [] => ([], true, offset, e)
  | chunk :: chunks' =>
      let cmd := data_cmd chunk in
      match send_command cmd e with
      | (None, e1) => ([cmd], false, offset, e1)
      | (Some data_response, e1) =>
          if Py.startswith data_response "UPLOAD_ERROR" then
            if Py.contains data_response "offset=" then
              match offset_hint data_response with
              | Some n => ([cmd], false, n, e1)
              | None => ([cmd], false, offset, e1)
              end
            else ([cmd], false, offset, e1)
          else if Py.startswith data_response "UPLOAD_DATA_OK" then
            match offset_of data_response with
            | Some n =>
                let '(sent, done, offset', e2) := send_chunks chunks' n e1 in
                (cmd :: sent, done, offset', e2)
            | None => ([cmd], false, offset, e1)
            end
          else
            let '(sent, done, offset', e2) := send_chunks chunks' offset e1 in
            (cmd :: sent, done, offset', e2)
      end
  end.

(** The body of the [try]: the commands sent, how it ends, the value of
    [offset] and the peer afterwards. *)
Definition attempt (local_full_path remote_filename : string) (offset : Z) (e : E)
    : list string * attempt_result * Z * E :=
  match local_files local_full_path with
  | None => ([], Raised, offset, e)
  | Some data =>
      match Py.seek_error offset with
      | Some _ => ([], Raised, offset, e)
      | None =>
          let cmd := upload_cmd remote_filename in
          match send_command cmd e with
          | (None, e1) => ([cmd], Raised, offset, e1)
          | (Some response, e1) =>
              if Py.startswith response "UPLOAD_READY"
                 || Py.startswith response "UPLOAD_RESUME" then
                match offset_of response with
                | None => ([cmd], Raised, offset, e1)
                | Some n =>
                    match Py.seek_error n with
                    | Some _ => ([cmd], Raised, n, e1)
                    | None =>
                        let chunks :=
                          Py.read_blocks BLOCK_SIZE (drop (Z.to_nat n) data) in
                        let '(sent, done, offset', e2) := send_chunks chunks n e1 in
                        if done then
                          match send_command "UPLOAD_END" e2 with
                          | (None, e3) =>
                              (cmd :: sent ++ ["UPLOAD_END"], Raised, offset', e3)
                          | (Some end_response, e3) =>
                              (cmd :: sent ++ ["UPLOAD_END"], Uploaded end_response,
                               offset', e3)
                          end
                        else (cmd :: sent, Raised, offset', e2)
                    end
                end
              else ([cmd], Refused response, offset, e1)
          end
      end
  end.


(** [while attempt < max_attempts], counted by the turns that remain.  The
    commands sent are kept apart, attempt by attempt. *)
Fixpoint attempts (remaining : nat) (local_full_path remote_filename : string)
    (offset : Z) (e : E) : list (list string) * outcome * E :=
  match remaining with
  | 0 => ([], Failure, e)
  | S remaining' =>
      let '(sent, result, offset', e1) :=
        attempt local_full_path remote_filename offset e in
      match result with
      | Uploaded end_response => ([sent], Success end_response, e1)
      | Refused response => ([sent], InitError response, e1)
      | Raised =>
          let '(later, out, e2) :=
            attempts remaining' local_full_path remote_filename offset' e1 in
          (sent :: later, out, e2)
      end
  end.

Definition upload_file (local_filepath remote_filename : string) (e : E)
    : list (list string) * outcome * E :=
  let local_filepath :=
    if (local_filepath =? "")%string then DEFAULT_DIR else local_filepath in
  let local_full_path :=
    Py.os_path_join local_filepath (basename remote_filename) in
  attempts max_attempts local_full_path remote_filename 0 e.

End Driver.

(** *** Download *)

(** How [download_file] ends; it returns [None] to its caller in each case
    and tells them apart by what it prints. *)
Inductive download_outcome :=
  | Downloaded                           (* prints "Téléchargement terminé" *)
  | DownloadRefused (response : string)  (* prints "Erreur lors de l'initiation" *)
  | DownloadFailure.                     (* prints "Échec du téléchargement" *)

(** How the loop that reads the lines of one download ends. *)
Inductive received :=
  | Ended                        (* DOWNLOAD_END: [return] *)
  | Unexpected (line : string)   (* [break] *)
  | Interrupted.                 (* an exception *)

(** How a stream of lines ends once its lines are read: the connection is
    closed and [readline] returns the empty string, or [readline] raises. *)
Inductive ending := Closed | Broken.

(** What the operating system does with the block [with open(path, 'ab')]
    of [download_data]: it lets the file be opened and written, or it refuses
    the open, or it refuses a later call on the file that is open. *)
Inductive local_io :=
  | Granted
  | OpenRefused (e : string)
  | WriteRefused (e : string).

(** Traite un chunk de données reçu en hexadécimal lors d'un téléchargement.
    The text is decoded before the file is opened.  The file is opened for
    append: it is created when absent, and the bytes go to its end wherever
    [seek] has put the cursor.  A call refused once the file is open leaves
    the file as the open made it. *)
Definition download_data (os : local_io) (d : Serveur.disk)
    (local_full_path : string) (offset : Z) (chunk_hex : string)
    : string * Z * Serveur.disk :=
  let failed (e : string) (d' : Serveur.disk) : string * Z * Serveur.disk :=
    ("DOWNLOAD_ERROR " +:+ e +:+ " offset=" +:+ pretty offset, offset, d') in
  match Py.fromhex chunk_hex with
  | inl e => failed e d
  | inr chunk_bytes =>
      match os with
      | OpenRefused e => failed e d
      | WriteRefused e =>
          failed e (fst (Serveur.open_for_write d local_full_path Serveur.A))
      | Granted =>
          let '(d1, f) := Serveur.open_for_write d local_full_path Serveur.A in
          match Py.seek_error offset with
          | Some e => failed e d1
          | None =>
              let d2 := fst (Serveur.file_write d1 f chunk_bytes) in
              let new_offset := (offset + Z.of_nat (length chunk_bytes))%Z in
              ("DOWNLOAD_DATA_OK offset=" +:+ pretty new_offset, new_offset, d2)
          end
      end
  end.

(** The loop [while True: line = sock_file.readline() ...] of
    [download_file], over the lines that [readline] returns before the stream
    ends; each comes with the verdict of the operating system for the write
    it leads to. *)
Fixpoint receive (lines : list (local_io * string)) (local_full_path : string)
    (offset : Z) (d : Serveur.disk) : received * Z * Serveur.disk :=
  match lines with
  | [] => (Interrupted, offset, d)
  | (os, line) :: lines' =>
      if (line =? "")%string then (Interrupted, offset, d)
      else
        let line := Py.strip line in
        if Py.startswith line "CHUNK" then
          match Py.split_maxsplit_1 line with
          | [_; chunk_hex] =>
              let '(data_response, offset', d') :=
                download_data os d local_full_path offset chunk_hex in
              if Py.startswith data_response "DOWNLOAD_ERROR"
              then (Interrupted, offset', d')
              else receive lines' local_full_path offset' d'
          | _ => receive lines' local_full_path offset d
          end
        else if Py.startswith line "DOWNLOAD_END" then (Ended, offset, d)
        else (Unexpected line, offset, d)
  end.

Section Downloader.

(** The other end of the socket: [exchange] sends a request with [sendall]
    and gives the lines the reader made for this attempt then returns, and how
    they end; [None] when [sendall] raises. *)
Context {E : Type}.
Variable exchange :
  string -> E -> option (list (local_io * string) * ending) * E.

Variable DEFAULT_DIR : string.

Definition download_cmd (remote_filename : string) (offset : nat) : string :=
  "DOWNLOAD " +:+ remote_filename +:+ " " +:+ pretty offset +:+ Serveur.nl.

(** [while attempt < max_attempts] of [download_file].  A turn that ends on
    an unexpected line starts the next one with [attempt] as it is, so the
    number of turns has no bound of its own: [turns] is the number of turns
    the model follows, and the outcome is [None] when they are used up
    before the function returns.  The requests sent are kept, in order. *)
Fixpoint download_loop (turns attempt : nat) (local_full_path remote_filename : string)
    (d : Serveur.disk) (e : E)
    : list string * option download_outcome * Serveur.disk * E :=
  if (max_attempts <=? attempt)%nat then ([], Some DownloadFailure, d, e)
  else
    match turns with
    | 0 => ([], None, d, e)
    | S turns' =>
        let offset :=
          if Serveur.path_exists d local_full_path
          then Serveur.getsize d local_full_path else 0 in
        let request := download_cmd remote_filename offset in
        let again (attempt' : nat) (d' : Serveur.disk) (e' : E) :=
          let '(sent, out, d'', e'') :=
            download_loop turns' attempt' local_full_path remote_filename d' e' in
          (request :: sent, out, d'', e'') in
        match exchange request e with
        | (None, e1) => again (S attempt) d e1
        | (Some (lines, fin), e1) =>
            match lines, fin with
            | [], Broken => again (S attempt) d e1
            | [], Closed => ([request], Some (DownloadRefused ""), d, e1)
            | (_, line) :: lines', _ =>
                let response := Py.strip line in
                if negb (Py.startswith response "DOWNLOAD_READY") then
                  ([request], Some (DownloadRefused response), d, e1)
                else
                  match receive lines' local_full_path (Z.of_nat offset) d with
                  | (Ended, _, d') => ([request], Some Downloaded, d', e1)
                  | (Unexpected _, _, d') => again attempt d' e1
                  | (Interrupted, _, d') => again (S attempt) d' e1
                  end
            end
        end
    end.

Definition download_file (turns : nat) (remote_filename local_filepath : string)
    (d : Serveur.disk) (e : E)
    : list string * option download_outcome * Serveur.disk * E :=
  let local_filepath :=
    if (local_filepath =? "")%string then DEFAULT_DIR else local_filepath in
  let local_full_path := Py.os_path_join local_filepath remote_filename in
  download_loop turns 0 local_full_path remote_filename d e.

End Downloader.
End Client.

(** ** The two programs on one connection *)

Module Link.
Import Serveur.

(** The other end of the client's socket: the session of the server, its
    disk, and the bytes it has sent that the client has not read yet. *)
Record peer := {
  session_of : session;
  disk_of : disk;
  unread : string
}.

Section Connected.

(** The server's directory. *)
Variable DEFAULT_DIR : string.

(** What the server does with the bytes of one [sendall] of the client: its
    loop reads them line by line and answers each line, its own operating
    system refusing nothing. *)
Definition deliver (sent : string) (p : peer) : peer :=
  let r := serve DEFAULT_DIR (map (fun line => (None, line)) (Py.text_lines sent))
             (session_of p) (disk_of p) in
  {| session_of := r.1.2; disk_of := r.2;
     unread := unread p +:+ String.concat "" r.1.1 |}.

(** [Client.send_command]: the command and a newline are sent, and what one
    [recv] of at most BLOCK_SIZE bytes returns is decoded.  The answer of the
    server has arrived when [recv] is called; what [recv] leaves stays
    unread. *)
Definition send_command (command : string) (p : peer) : option string * peer :=
  let p' := deliver (command +:+ nl) p in
  let got := Py.take_bytes Client.BLOCK_SIZE (unread p') in
  let rest := Py.drop_bytes Client.BLOCK_SIZE (unread p') in
  (Py.decode_received got rest,
   {| session_of := session_of p'; disk_of := disk_of p'; unread := rest |}).

(** One request of [Client.download_file]: the request is sent, and the
    reader made for the attempt returns what is unread line by line; the
    client's operating system refuses nothing.  [fin] is how the stream ends
    after these lines. *)
Definition exchange (fin : Client.ending) (request : string) (p : peer)
    : option (list (Client.local_io * string) * Client.ending) * peer :=
  let p' := deliver request p in
  (Some (map (fun line => (Client.Granted, line)) (Py.text_lines (unread p')), fin),
   {| session_of := session_of p'; disk_of := disk_of p'; unread := "" |}).

End Connected.
End Link.

(** ** Vocabulary of the statements *)

Section Vocabulary.
Import Serveur.

Fixpoint all_chars (p : ascii -> bool) (s : string) : bool :=
  match s with
  | "" => true
  | String c s' => p c && all_chars p s'
  end.

(** Only spaces. *)
Definition blank (s : string) : bool := all_chars Py.isspace s.

(** No space at all. *)
Definition spaceless (s : string) : bool := all_chars (fun c => negb (Py.isspace c)) s.

(** A word: what [split] returns as one element. *)
Definition is_word (s : string) : bool :=
  match s with "" => false | _ => spaceless s end.


Definition response (r : reply) : string := r.1.1.
Definition state_after (r : reply) : session := r.1.2.
Definition disk_after (r : reply) : disk := r.2.

(** The handle writes at the end of its file: it was opened for append, or
    its position is the size of the file. *)
Definition at_end (d : disk) (f : handle) : Prop :=
  h_append f = true \/ h_pos f = length (content d (h_ino f)).

(** The session transfers into the file stored at [path], through the
    handle [f] that stands at its end. *)
Definition transfers_to (d : disk) (st : session) (path : string) (f : handle) : Prop :=
  transfer_in_progress st = true /\ transfer_file st = Some f /\
  dir d !! path = Some (h_ino f) /\ at_end d f.

(** The bytes an [UPLOAD_DATA] line carries, when its text decodes. *)
Definition payload (line : string) : option (list byte) :=
  match Py.split line with
  | _ :: (_ :: _) as data =>
      match Py.fromhex (Py.join " " data) with
      | inr data_bytes => Some data_bytes
      | inl _ => None
      end
  | _ => None
  end.

(** The bytes a line of a sequence of [UPLOAD_DATA] lines carries (none when
    its text does not decode), and their number. *)
Definition chunk_bytes (l : option string * string) : list byte :=
  default [] (payload l.2).

(** The verb of a line, as the dispatcher reads it. *)
Definition verb_of (line : string) : option string :=
  match Py.split line with
  | verb :: _ => Some (Py.upper verb)
  | [] => None
  end.

(** The verbs the dispatcher knows. *)
Definition known_verbs : list string :=
  ["LIST"; "OPEN"; "CREATE"; "RENAME"; "DELETE"; "READ"; "WRITE"; "CLOSE";
   "UPLOAD"; "UPLOAD_DATA"; "UPLOAD_END"; "RESUME_UPLOAD"].

(** The ways in which a command other than an upload command fails its
    precondition, read on the words of the line: no word at all, an unknown
    verb, a missing argument, a file that does not exist, or a conflict with
    the state of the session. *)
Inductive fails_precondition (DEFAULT_DIR : string) (d : disk) (st : session)
    : list string -> Prop :=
  | empty_line :
      fails_precondition DEFAULT_DIR d st []
  | unknown_verb verb args :
      Py.upper verb ∉ known_verbs ->
      fails_precondition DEFAULT_DIR d st (verb :: args)
  | open_while_open verb args name :
      Py.upper verb = "OPEN" -> open_file st = Some name ->
      fails_precondition DEFAULT_DIR d st (verb :: args)
  | open_without_name verb :
      Py.upper verb = "OPEN" ->
      fails_precondition DEFAULT_DIR d st [verb]
  | open_absent verb filename rest :
      Py.upper verb = "OPEN" ->
      path_exists d (filepath DEFAULT_DIR filename) = false ->
      fails_precondition DEFAULT_DIR d st (verb :: filename :: rest)
  | create_while_open verb args name :
      Py.upper verb = "CREATE" -> open_file st = Some name ->
      fails_precondition DEFAULT_DIR d st (verb :: args)
  | create_without_name verb :
      Py.upper verb = "CREATE" ->
      fails_precondition DEFAULT_DIR d st [verb]
  | rename_without_names verb args :
      Py.upper verb = "RENAME" -> length args < 2 ->
      fails_precondition DEFAULT_DIR d st (verb :: args)
  | rename_absent verb old_name new_name rest :
      Py.upper verb = "RENAME" ->
      path_exists d (filepath DEFAULT_DIR old_name) = false ->
      fails_precondition DEFAULT_DIR d st (verb :: old_name :: new_name :: rest)
  | delete_without_name verb :
      Py.upper verb = "DELETE" ->
      fails_precondition DEFAULT_DIR d st [verb]
  | delete_absent verb filename rest :
      Py.upper verb = "DELETE" ->
      path_exists d (filepath DEFAULT_DIR filename) = false ->
      fails_precondition DEFAULT_DIR d st (verb :: filename :: rest)
  | read_none_open verb args :
      Py.upper verb = "READ" -> open_file st = None ->
      fails_precondition DEFAULT_DIR d st (verb :: args)
  | read_absent verb args name :
      Py.upper verb = "READ" -> open_file st = Some name ->
      path_exists d (filepath DEFAULT_DIR name) = false ->
      fails_precondition DEFAULT_DIR d st (verb :: args)
  | write_none_open verb args :
      Py.upper verb = "WRITE" -> open_file st = None ->
      fails_precondition DEFAULT_DIR d st (verb :: args)
  | write_without_data verb :
      Py.upper verb = "WRITE" ->
      fails_precondition DEFAULT_DIR d st [verb]
  | close_none_open verb args :
      Py.upper verb = "CLOSE" -> open_file st = None ->
      fails_precondition DEFAULT_DIR d st (verb :: args).

(** What every command keeps true of the session. *)
Definition coherent (st : session) : Prop :=
  (transfer_in_progress st = true <-> is_Some (transfer_file st)) /\
  (error_flag st = true -> transfer_in_progress st = true) /\
  (error_flag st = false -> error_message st = "") /\
  (phase st = ASSOCIATED -> open_file st = None) /\
  (phase st = TRANSFER_IN_PROGRESS -> transfer_in_progress st = true).

(** No carriage return inside. *)
Definition no_return (s : string) : bool :=
  all_chars (fun c => negb (c =? "013")%char) s.

(** No line end inside. *)
Definition one_line (s : string) : bool :=
  all_chars (fun c => negb ((c =? "010")%char || (c =? "013")%char)) s.

Definition is_digit (c : ascii) : bool :=
  match Py.digit_val c with Some _ => true | None => false end.

(** A stream that begins as a download does and then carries a line that is
    neither a block nor the end. *)
Definition goes_astray (lines : list (Client.local_io * string)) : Prop :=
  exists os header os' stray rest,
    lines = (os, header) :: (os', stray) :: rest /\
    Py.startswith (Py.strip header) "DOWNLOAD_READY" = true /\
    stray <> "" /\
    Py.startswith (Py.strip stray) "CHUNK" = false /\
    Py.startswith (Py.strip stray) "DOWNLOAD_END" = false.

End Vocabulary.

(** ** Concrete inputs *)

Module Scenarios.
Import Serveur.

Definition root : string := "/srv/ftam/data".
Definition empty_disk : disk := {| dir := ∅; inodes := ∅ |}.

(** A line the operating system serves without failure. *)
Definition ok (line : string) : option string * string := (None, line).

(** The session and the disk after the lines, from a fresh connection. *)
Definition after (lines : list string) : session * disk :=
  let r := handle_client root (map ok lines) empty_disk in (r.1.2, r.2).

(** What the server sends for the lines, the greeting left out. *)
Definition answers (lines : list string) : list string :=
  tail (handle_client root (map ok lines) empty_disk).1.1.

(** The server as the peer of the client: every command is a line served
    without failure, and what is sent back is what the client receives. *)
Definition served (command : string) (peer : session * disk)
    : option string * (session * disk) :=
  let r := handle_line root None command peer.1 peer.2 in
  (Some (String.concat "" r.1.1), (r.1.2, r.2)).

(** A peer that cannot be reached: every exchange raises. *)
Definition unreachable (command : string) (peer : unit) : option string * unit :=
  (None, peer).

(** The client's files: one file of five bytes. *)
Definition one_local_file (path : string) : option (list byte) :=
  if (path =? "/home/u/notes.txt")%string then Some [x48; x65; x6c; x6c; x6f] else None.

(** The server as the client finds it when it connects to the disk that the
    lines of an earlier connection left, nothing unread. *)
Definition holding (lines : list string) : Link.peer :=
  {| Link.session_of := initial_state; Link.disk_of := (after lines).2;
     Link.unread := "" |}.

(** A peer that answers every request with the head of a download and an
    error line, as [cmd_download] does when a read fails once the download
    has begun. *)
Definition failing_reads (request : string) (peer : unit)
    : option (list (Client.local_io * string) * Client.ending) * unit :=
  (Some ([(Client.Granted, "DOWNLOAD_READY f offset=0" +:+ nl);
          (Client.Granted, "ERREUR: Téléchargement du fichier échoué: x" +:+ nl)],
         Client.Closed), peer).

(** The client's disk with one file of two bytes. *)
Definition local_disk : disk :=
  (file_write (open_for_write empty_disk "/home/u/f" A).1
     (open_for_write empty_disk "/home/u/f" A).2 [x41; x42]).1.


End Scenarios.

(** * Properties *)

(** ** Text *)

Section TextFacts.
Import Py.

Local Arguments isspace : simpl never.
Local Arguments upper_char : simpl never.

Lemma upper_char_idem c : upper_char (upper_char c) = upper_char c.
Proof. by destruct c as [[] [] [] [] [] [] [] []]. Qed.

Lemma isspace_upper_char c : isspace (upper_char c) = isspace c.
Proof. by destruct c as [[] [] [] [] [] [] [] []]. Qed.

Lemma upper_idem s : upper (upper s) = upper s.
Proof. induction s as [|c s IH]; simpl; [done|]. by rewrite upper_char_idem, IH. Qed.

Lemma upper_app s t : upper (s +:+ t) = upper s +:+ upper t.
Proof. induction s as [|c s IH]; simpl; [done|]. by rewrite IH. Qed.

Lemma spaceless_upper s : spaceless (upper s) = spaceless s.
Proof.
  induction s as [|c s IH]; simpl; [done|].
  unfold spaceless in *. simpl. by rewrite isspace_upper_char, IH.
Qed.

Lemma is_word_upper s : is_word (upper s) = is_word s.
Proof. destruct s as [|c s]; [done|]. apply (spaceless_upper (String c s)). Qed.

Lemma split_blank_app pre s : blank pre -> split (pre +:+ s) = split s.
Proof.
  induction pre as [|c pre IH]; simpl; [done|].
  intros [Hc Hpre]%andb_prop_elim.
  destruct (isspace c); [by apply IH|done].
Qed.

Lemma starts_word_app_word v rest : is_word v -> starts_word (v +:+ rest) = true.
Proof.
  destruct v as [|c v]; [done|]. simpl.
  intros [Hc _]%andb_prop_elim. by destruct (isspace c).
Qed.

Lemma split_word_app v rest :
  is_word v -> starts_word rest = false -> split (v +:+ rest) = v :: split rest.
Proof.
  intros Hv Hrest. induction v as [|c v IH]; [done|].
  simpl in Hv. apply andb_prop_elim in Hv as [Hc Hv].
  change (String c v +:+ rest) with (String c (v +:+ rest)). simpl.
  destruct (isspace c); [done|].
  destruct v as [|c' v].
  - change ("" +:+ rest) with rest. by rewrite Hrest.
  - rewrite starts_word_app_word by done. by rewrite IH.
Qed.

Lemma starts_word_split s : starts_word s = true -> split s <> [].
Proof.
  destruct s as [|c s]; [done|]. simpl. intros Hc.
  destruct (isspace c); [done|].
  destruct (starts_word s); [by destruct (split s)|done].
Qed.

Lemma blank_starts_word pre s :
  blank pre -> starts_word (pre +:+ s) = true -> pre = "".
Proof.
  destruct pre as [|c pre]; [done|]. simpl.
  intros [Hc _]%andb_prop_elim. by destruct (isspace c).
Qed.

Lemma is_word_spaceless v : is_word v -> spaceless v.
Proof. by destruct v. Qed.

(** What [split] tells about the text it was given: the first word, the
    blanks before it and the text after it. *)
Lemma split_cons_inv s v ws :
  split s = v :: ws ->
  exists pre rest,
    s = pre +:+ v +:+ rest /\ blank pre /\ is_word v /\
    starts_word rest = false /\ split rest = ws.
Proof.
  revert v ws. induction s as [|c s IH]; intros v ws H; [done|].
  simpl in H. destruct (isspace c) eqn:Hc.
  - destruct (IH _ _ H) as (pre & rest & -> & Hpre & Hv & Hrest & Hws).
    exists (String c pre), rest. repeat split; try done.
    apply andb_prop_intro. by rewrite Hc.
  - destruct (starts_word s) eqn:Hs.
    + destruct (split s) as [|w ws'] eqn:Hsplit.
      { by apply starts_word_split in Hs. }
      injection H as <- <-.
      destruct (IH _ _ eq_refl) as (pre & rest & -> & Hpre & Hw & Hrest & Hws).
      apply blank_starts_word in Hs as ->; [|done].
      exists "", rest. repeat split; try done.
      apply andb_prop_intro. rewrite Hc. split; [done|by apply is_word_spaceless].
    + injection H as <- <-. exists "", s. repeat split; try done.
      apply andb_prop_intro. by rewrite Hc.
Qed.

Lemma lstrip_blank_app pre s :
  blank pre -> lstrip_by isspace (pre +:+ s) = lstrip_by isspace s.
Proof.
  induction pre as [|c pre IH]; [done|]. simpl.
  intros [Hc Hpre]%andb_prop_elim. destruct (isspace c); [by apply IH|done].
Qed.

Lemma lstrip_word_app v rest :
  is_word v -> lstrip_by isspace (v +:+ rest) = v +:+ rest.
Proof.
  destruct v as [|c v]; [done|]. simpl.
  intros [Hc _]%andb_prop_elim. by destruct (isspace c).
Qed.

Lemma rstrip_cons_word c s :
  isspace c = false ->
  rstrip_by isspace (String c s) = String c (rstrip_by isspace s).
Proof. intros Hc. simpl. rewrite Hc. by destruct (rstrip_by isspace s). Qed.

Lemma rstrip_spaceless_app v rest :
  spaceless v -> rstrip_by isspace (v +:+ rest) = v +:+ rstrip_by isspace rest.
Proof.
  induction v as [|c v IH]; [done|].
  intros [Hc Hv]%andb_prop_elim.
  change (String c v +:+ rest) with (String c (v +:+ rest)).
  rewrite rstrip_cons_word by (by destruct (isspace c)).
  by rewrite IH.
Qed.

Lemma strip_decomp pre v rest :
  blank pre -> is_word v ->
  strip (pre +:+ v +:+ rest) = v +:+ rstrip_by isspace rest.
Proof.
  intros Hpre Hv. unfold strip, strip_by.
  rewrite lstrip_blank_app, lstrip_word_app by done.
  by apply rstrip_spaceless_app, is_word_spaceless.
Qed.

Lemma starts_word_rstrip s :
  starts_word s = false -> starts_word (rstrip_by isspace s) = false.
Proof.
  destruct s as [|c s]; [done|]. simpl.
  destruct (isspace c) eqn:Hc; [|done]. intros _.
  destruct (rstrip_by isspace s); simpl; by rewrite ?Hc.
Qed.

Lemma starts_word_upper s : starts_word (upper s) = starts_word s.
Proof. destruct s as [|c s]; [done|]. simpl. by rewrite isspace_upper_char. Qed.

Lemma split_lstrip s : split (lstrip_by isspace s) = split s.
Proof.
  induction s as [|c s IH]; [done|]. simpl.
  destruct (isspace c) eqn:Hc; [done|]. simpl. by rewrite Hc.
Qed.

Lemma rstrip_empty_split s : rstrip_by isspace s = "" -> split s = [] /\ starts_word s = false.
Proof.
  induction s as [|c s IH]; [done|]. simpl.
  destruct (rstrip_by isspace s) eqn:Hr; [|done].
  destruct (isspace c) eqn:Hc; [|done]. intros _.
  by destruct IH.
Qed.

Lemma rstrip_starts_word s :
  rstrip_by isspace s <> "" -> starts_word (rstrip_by isspace s) = starts_word s.
Proof.
  destruct s as [|c s]; [done|]. simpl.
  destruct (rstrip_by isspace s); [|done].
  destruct (isspace c) eqn:Hc; simpl; [congruence|by rewrite Hc].
Qed.

Lemma split_rstrip s : split (rstrip_by isspace s) = split s.
Proof.
  induction s as [|c s IH]; [done|].
  destruct (decide (rstrip_by isspace s = "")) as [Hr|Hr].
  - destruct (rstrip_empty_split _ Hr) as [Hs Hw].
    simpl. rewrite Hr, Hs, Hw.
    destruct (isspace c) eqn:Hc; [done|]. simpl. by rewrite Hc.
  - assert (rstrip_by isspace (String c s) = String c (rstrip_by isspace s)) as ->.
    { simpl. by destruct (rstrip_by isspace s). }
    simpl. by rewrite IH, rstrip_starts_word.
Qed.

Lemma split_strip s : split (strip s) = split s.
Proof. unfold strip, strip_by. by rewrite split_rstrip, split_lstrip. Qed.

Lemma prefix_nil s : String.prefix "" s = true.
Proof. by destruct s. Qed.

Lemma prefix_spaceless_app p a b :
  spaceless p -> starts_word b = false ->
  String.prefix p (a +:+ b) = String.prefix p a.
Proof.
  revert a. induction p as [|c p IH]; intros a Hp Hb.
  { by rewrite !prefix_nil. }
  apply andb_prop_elim in Hp as [Hc Hp].
  destruct a as [|x a].
  - change ("" +:+ b) with b. destruct b as [|y b]; [done|]. simpl.
    simpl in Hb. destruct (ascii_dec c y) as [->|]; [|done].
    by destruct (isspace y).
  - change (String x a +:+ b) with (String x (a +:+ b)). simpl.
    destruct (ascii_dec c x); [by apply IH|done].
Qed.

(** The test of [handle_client] on the whole line is a test on its verb. *)
Lemma startswith_upper_strip line v args p :
  split line = v :: args -> spaceless p ->
  startswith (upper (strip line)) p = startswith (upper v) p.
Proof.
  intros (pre & rest & -> & Hpre & Hv & Hrest & _)%split_cons_inv Hp.
  rewrite strip_decomp, upper_app by done.
  unfold startswith. apply prefix_spaceless_app; [done|].
  rewrite starts_word_upper. by apply starts_word_rstrip.
Qed.

Lemma split_nil_blank s : split s = [] -> blank s.
Proof.
  induction s as [|c s IH]; [done|]. simpl.
  destruct (isspace c) eqn:Hc.
  - intros H%IH. apply andb_prop_intro. by rewrite Hc.
  - destruct (starts_word s); [by destruct (split s)|done].
Qed.

Lemma strip_blank s : blank s -> strip s = "".
Proof.
  intros H. unfold strip, strip_by.
  assert (lstrip_by isspace s = "") as ->; [|done].
  induction s as [|c s IH]; [done|].
  apply andb_prop_elim in H as [Hc Hs]. simpl.
  destruct (isspace c); [by apply IH|done].
Qed.
End TextFacts.

(** ** Bytes: hexadecimal text and block reads *)

Section ByteFacts.
Import Py.

Lemma hex_byte b :
  let n := Byte.to_N b in
  let hi := hex_digit (n / 16) in
  let lo := hex_digit (n mod 16) in
  c_isspace hi = false /\ hexval hi = Some (n / 16)%N /\ hexval lo = Some (n mod 16)%N /\
  byte_of_nibbles (n / 16) (n mod 16) = b /\
  (128 <=? N_of_ascii hi)%N = false /\ (128 <=? N_of_ascii lo)%N = false.
Proof. destruct b; vm_compute; by repeat split. Qed.

Lemma first_non_ascii_hex bs pos : first_non_ascii (hex bs) pos = None.
Proof.
  revert pos. induction bs as [|b bs IH]; intros pos; [done|].
  destruct (hex_byte b) as (_ & _ & _ & _ & Hhi & Hlo).
  cbn [hex first_non_ascii]. cbv zeta in Hhi, Hlo. by rewrite Hhi, Hlo, IH.
Qed.

Lemma fromhex_scan_hex bs pos : fromhex_scan (hex bs) pos = inr bs.
Proof.
  revert pos. induction bs as [|b bs IH]; intros pos; [done|].
  destruct (hex_byte b) as (Hsp & Hhi & Hlo & Hb & _).
  cbn [hex fromhex_scan]. cbv zeta in Hsp, Hhi, Hlo, Hb.
  by rewrite Hsp, Hhi, Hlo, IH, Hb.
Qed.

(** What [hex] writes, [bytes.fromhex] reads back. *)
Lemma fromhex_hex bs : fromhex (hex bs) = inr bs.
Proof. unfold fromhex. by rewrite first_non_ascii_hex, fromhex_scan_hex. Qed.

Lemma seek_error_none n : (0 <= n < 2 ^ 63)%Z -> seek_error n = None.
Proof.
  intros [H1 H2]. unfold seek_error.
  rewrite (proj2 (Z.ltb_ge _ _) H1).
  by rewrite (proj2 (Z.leb_gt _ _) H2).
Qed.

Lemma take_nil_inv {A} n (l : list A) : 0 < n -> take n l = [] -> l = [].
Proof. destruct n; [lia|]. by destruct l. Qed.

Lemma read_loop_concat size fuel data :
  0 < size -> length data <= fuel -> concat (read_loop size fuel data) = data.
Proof.
  intros Hsize. revert data. induction fuel as [|fuel IH]; intros data Hlen.
  { destruct data; [done|simpl in Hlen; lia]. }
  simpl. destruct (take size data) as [|x chunk] eqn:Htake.
  { symmetry. by eapply take_nil_inv. }
  simpl. rewrite IH.
  - rewrite app_comm_cons, <- Htake. apply take_drop.
  - rewrite length_drop. destruct data; [by destruct size|]. simpl in *. lia.
Qed.

Lemma read_loop_bounded size fuel data :
  Forall (fun chunk => 0 < length chunk <= size) (read_loop size fuel data).
Proof.
  revert data. induction fuel as [|fuel IH]; intros data; [constructor|].
  simpl. destruct (take size data) as [|x chunk] eqn:Htake; [constructor|].
  constructor; [|apply IH].
  rewrite <- Htake, length_take. split; [|lia].
  assert (length (take size data) = S (length chunk)) by (by rewrite Htake).
  rewrite length_take in H. lia.
Qed.

(** The blocks read are the bytes after the cursor, cut in pieces of at most
    [size] bytes, none of them empty. *)
Lemma read_blocks_concat size data :
  0 < size -> concat (read_blocks size data) = data.
Proof. intros. by apply read_loop_concat. Qed.

Lemma read_blocks_bounded size data :
  Forall (fun chunk => 0 < length chunk <= size) (read_blocks size data).
Proof. apply read_loop_bounded. Qed.

End ByteFacts.

(** ** The server *)

Section ServerFacts.
Import Serveur.

Variable DEFAULT_DIR : string.

Abbreviation filepath := (filepath DEFAULT_DIR).
Abbreviation gestionnaire_commandes := (gestionnaire_commandes DEFAULT_DIR).
Abbreviation handle_line := (handle_line DEFAULT_DIR).
Abbreviation cmd_begin_upload := (cmd_begin_upload DEFAULT_DIR).
Abbreviation cmd_download := (cmd_download DEFAULT_DIR).

Lemma content_put d i bs : content (put d i bs) i = bs.
Proof. unfold content, put. simpl. by rewrite lookup_insert_eq. Qed.




Lemma open_for_append d path :
  let r := open_for_write d path A in
  dir r.1 !! path = Some (h_ino r.2) /\ h_append r.2 = true /\
  content r.1 (h_ino r.2) = default [] (read_file d path).
Proof.
  unfold open_for_write, read_file. destruct (dir d !! path) as [i|] eqn:Hi; simpl.
  - by rewrite Hi.
  - rewrite lookup_insert_eq. repeat split.
    unfold content. simpl. by rewrite lookup_insert_eq.
Qed.


(** The dispatcher, verb by verb. *)
Section Dispatch.
Context (os : option string) (command verb : string) (args : list string)
        (session_state : session) (d : disk).
Hypothesis Hsplit : Py.split command = verb :: args.

Local Ltac dispatch :=
  intros Hverb; unfold Serveur.gestionnaire_commandes;
  rewrite Hsplit, Hverb; cbv [String.eqb Ascii.eqb Bool.eqb]; reflexivity.


Lemma dispatch_open :
  Py.upper verb = "OPEN" ->
  gestionnaire_commandes os command session_state d
  = cmd_open DEFAULT_DIR session_state d (verb :: args).
Proof. dispatch. Qed.

Lemma dispatch_create :
  Py.upper verb = "CREATE" ->
  gestionnaire_commandes os command session_state d
  = cmd_create DEFAULT_DIR os session_state d (verb :: args).
Proof. dispatch. Qed.

Lemma dispatch_rename :
  Py.upper verb = "RENAME" ->
  gestionnaire_commandes os command session_state d
  = cmd_rename DEFAULT_DIR os session_state d (verb :: args).
Proof. dispatch. Qed.

Lemma dispatch_delete :
  Py.upper verb = "DELETE" ->
  gestionnaire_commandes os command session_state d
  = cmd_delete DEFAULT_DIR os session_state d (verb :: args).
Proof. dispatch. Qed.

Lemma dispatch_read :
  Py.upper verb = "READ" ->
  gestionnaire_commandes os command session_state d = cmd_read DEFAULT_DIR os session_state d.
Proof. dispatch. Qed.

Lemma dispatch_write :
  Py.upper verb = "WRITE" ->
  gestionnaire_commandes os command session_state d
  = cmd_write DEFAULT_DIR os session_state d (verb :: args).
Proof. dispatch. Qed.

Lemma dispatch_close :
  Py.upper verb = "CLOSE" ->
  gestionnaire_commandes os command session_state d = cmd_close session_state d.
Proof. dispatch. Qed.



Lemma dispatch_upload_end :
  Py.upper verb = "UPLOAD_END" ->
  gestionnaire_commandes os command session_state d = cmd_upload_end os session_state d.
Proof. dispatch. Qed.

Lemma dispatch_resume_upload :
  Py.upper verb = "RESUME_UPLOAD" ->
  gestionnaire_commandes os command session_state d = cmd_resume_upload session_state d.
Proof. dispatch. Qed.
End Dispatch.

Ltac reduce_reply :=
  cbn [response state_after disk_after fst snd transfer_offset phase transfer_file
       transfer_in_progress open_file error_flag error_message
       h_ino h_pos h_append dir inodes] in *.


(** *** UPLOAD_DATA *)



(** A line that is not taken by the streaming path goes to the dispatcher,
    stripped, and its answer is sent back with a newline. *)
Lemma handle_line_dispatch os line verb args session_state d :
  Py.split line = verb :: args ->
  Py.startswith (Py.upper verb) "DOWNLOAD" = false ->
  Py.split (Py.strip line) = verb :: args /\
  handle_line os line session_state d =
    (let r := gestionnaire_commandes os (Py.strip line) session_state d in
     ([response r +:+ nl], state_after r, disk_after r)).
Proof.
  intros Hsplit Hverb. split; [by rewrite split_strip|].
  unfold Serveur.handle_line.
  rewrite (startswith_upper_strip _ _ _ _ Hsplit) by done. rewrite Hverb.
  by destruct (gestionnaire_commandes os (Py.strip line) session_state d) as [[? ?] ?].
Qed.

Lemma getsize_target d st path f :
  transfers_to d st path f -> getsize d path = length (content d (h_ino f)).
Proof. intros (_ & _ & Hdir & _). unfold getsize. by rewrite Hdir. Qed.









(** *** WRITE *)

(** C9, as amended.  With a file open, a [WRITE] line with data appends
    its data words joined by single spaces, then one newline, to the file
    (created if it is gone), after the bytes the file already holds; the
    answer is [WRITE_OK name] and the session does not change. *)
Theorem write_appends_joined_words command verb data filename session_state d :
  Py.split command = verb :: data -> data <> [] ->
  Py.upper verb = "WRITE" ->
  open_file session_state = Some filename ->
  let r := gestionnaire_commandes None command session_state d in
  response r = "WRITE_OK " +:+ filename /\
  state_after r = session_state /\
  read_file (disk_after r) (filepath filename)
    = Some (default [] (read_file d (filepath filename))
              ++ Py.encode (Py.join " " data +:+ nl)).
Proof.
  intros Hsplit Hdata Hverb Hopen r. subst r.
  rewrite (dispatch_write _ _ _ _ _ _ Hsplit Hverb).
  unfold cmd_write. rewrite Hopen. destruct data as [|x data]; [done|].
  pose proof (open_for_append d (filepath filename)) as (Hdir & Happ & Hcontent).
  destruct (open_for_write d (filepath filename) A) as [d1 f]. reduce_reply.
  repeat split.
  unfold file_write, read_file. rewrite Happ. reduce_reply.
  change (dir (put d1 (h_ino f) ?x)) with (dir d1).
  by rewrite Hdir, content_put, Hcontent.
Qed.

(** *** DOWNLOAD *)

(** C7.  A line taken by the streaming path that names an existing file
    and an offset from 0 to 2^63 - 1 is answered, the file being readable, by the
    line [DOWNLOAD_READY name offset=N], then one [CHUNK <hex>] line per block
    read, then [DOWNLOAD_END]; the blocks have at most 512 bytes, their
    hexadecimal text decodes to them, and together they are the bytes of the
    file from the offset on.  For a file that does not exist the answer is a
    single [ERREUR:] line.  The session and the disk do not change. *)
Theorem download_streams_file_from_offset line verb filename args session_state d :
  Py.split line = verb :: filename :: args ->
  Py.startswith (Py.upper verb) "DOWNLOAD" = true ->
  (forall offset rest n data,
     args = offset :: rest -> Py.int offset = Some n -> (0 <= n < 2 ^ 63)%Z ->
     read_file d (filepath filename) = Some data ->
     let chunks := Py.read_blocks BLOCK_SIZE (drop (Z.to_nat n) data) in
     handle_line None line session_state d =
       (["DOWNLOAD_READY " +:+ filename +:+ " offset=" +:+ pretty n +:+ nl]
          ++ map (fun chunk => "CHUNK " +:+ Py.hex chunk +:+ nl) chunks
          ++ ["DOWNLOAD_END" +:+ nl],
        session_state, d) /\
     Forall (fun chunk => length chunk <= 512 /\ Py.fromhex (Py.hex chunk) = inr chunk)
       chunks /\
     concat chunks = drop (Z.to_nat n) data) /\
  (forall os,
     read_file d (filepath filename) = None ->
     exists answer,
       handle_line os line session_state d = ([answer], session_state, d) /\
       Py.startswith answer "ERREUR:" = true).
Proof.
  intros Hsplit Hverb.
  assert (forall os, handle_line os line session_state d
                     = (cmd_download os (Py.strip line) session_state d, session_state, d))
    as Hline.
  { intros os. unfold Serveur.handle_line.
    by rewrite (startswith_upper_strip _ _ _ _ Hsplit), Hverb. }
  split.
  - intros offset rest n data -> Hint Hn Hdata chunks. repeat split.
    + rewrite Hline. unfold Serveur.cmd_download, path_exists, read_file in *.
      rewrite split_strip, Hsplit, Hint.
      destruct (dir d !! filepath filename); [|done].
      injection Hdata as <-. cbn [negb default].
      by rewrite (seek_error_none _ Hn).
    + eapply Forall_impl; [apply read_blocks_bounded|].
      intros chunk [_ Hlen]. split; [done|apply fromhex_hex].
    + apply read_blocks_concat. unfold BLOCK_SIZE. lia.
  - intros os Hnone. rewrite Hline.
    unfold Serveur.cmd_download, path_exists, read_file in *.
    rewrite split_strip, Hsplit.
    destruct (dir d !! filepath filename); [done|]. cbn [negb].
    destruct args as [|offset rest]; [by eexists|].
    destruct (Py.int offset); by eexists.
Qed.

(** *** Refusals *)

Lemma prefix_app_r p s t : String.prefix p s = true -> String.prefix p (s +:+ t) = true.
Proof.
  revert s. induction p as [|c p IH]; intros s; [intros _; apply prefix_nil|].
  destruct s as [|x s]; [done|].
  change (String x s +:+ t) with (String x (s +:+ t)). simpl.
  destruct (ascii_dec c x); [apply IH|done].
Qed.

Lemma refused_by_dispatcher os command session_state d :
  fails_precondition DEFAULT_DIR d session_state (Py.split command) ->
  let r := gestionnaire_commandes os command session_state d in
  Py.startswith (response r) "ERREUR:" = true /\
  state_after r = session_state /\ disk_after r = d.
Proof.
  intros H r. subst r. inversion H as
    [ Hs | verb args Hverb Hs | verb args name Hverb Hopen Hs | verb Hverb Hs
    | verb filename rest Hverb Habsent Hs | verb args name Hverb Hopen Hs | verb Hverb Hs
    | verb args Hverb Hargs Hs | verb old_name new_name rest Hverb Habsent Hs
    | verb Hverb Hs | verb filename rest Hverb Habsent Hs
    | verb args Hverb Hopen Hs | verb args name Hverb Hopen Habsent Hs
    | verb args Hverb Hopen Hs | verb Hverb Hs
    | verb args Hverb Hopen Hs ]; symmetry in Hs.
  - unfold Serveur.gestionnaire_commandes. by rewrite Hs.
  - unfold Serveur.gestionnaire_commandes. rewrite Hs. cbv zeta.
    repeat match goal with
           | |- context [String.eqb ?a ?b] =>
               destruct (String.eqb_spec a b) as [Heq|_];
               [exfalso; apply Hverb; rewrite Heq; unfold known_verbs; set_solver|]
           end.
    done.
  - rewrite (dispatch_open _ _ _ _ _ _ Hs Hverb). unfold cmd_open. by rewrite Hopen.
  - rewrite (dispatch_open _ _ _ _ _ _ Hs Hverb). unfold cmd_open.
    by destruct (open_file session_state).
  - rewrite (dispatch_open _ _ _ _ _ _ Hs Hverb). unfold cmd_open. rewrite Habsent.
    by destruct (open_file session_state).
  - rewrite (dispatch_create _ _ _ _ _ _ Hs Hverb). unfold cmd_create. by rewrite Hopen.
  - rewrite (dispatch_create _ _ _ _ _ _ Hs Hverb). unfold cmd_create.
    by destruct (open_file session_state).
  - rewrite (dispatch_rename _ _ _ _ _ _ Hs Hverb). unfold cmd_rename.
    destruct args as [|a [|b args]]; [done..|simpl in Hargs; lia].
  - rewrite (dispatch_rename _ _ _ _ _ _ Hs Hverb). unfold cmd_rename. by rewrite Habsent.
  - by rewrite (dispatch_delete _ _ _ _ _ _ Hs Hverb).
  - rewrite (dispatch_delete _ _ _ _ _ _ Hs Hverb). unfold cmd_delete. by rewrite Habsent.
  - rewrite (dispatch_read _ _ _ _ _ _ Hs Hverb). unfold cmd_read. by rewrite Hopen.
  - rewrite (dispatch_read _ _ _ _ _ _ Hs Hverb). unfold cmd_read, path_exists, read_file in *.
    rewrite Hopen. destruct (dir d !! _); [done|]. by destruct os.
  - rewrite (dispatch_write _ _ _ _ _ _ Hs Hverb). unfold cmd_write. by rewrite Hopen.
  - rewrite (dispatch_write _ _ _ _ _ _ Hs Hverb). unfold cmd_write.
    by destruct (open_file session_state).
  - rewrite (dispatch_close _ _ _ _ _ _ Hs Hverb). unfold cmd_close. by rewrite Hopen.
Qed.

(** C8.  A command other than an upload command that fails its
    precondition is answered by the dispatcher with a text that starts with
    [ERREUR:], and the session and the disk are returned as they were.  So
    is it by the connection loop, for every line the loop does not hand to
    the streaming path. *)
Theorem failed_precondition_is_refused os line session_state d :
  fails_precondition DEFAULT_DIR d session_state (Py.split line) ->
  (let r := gestionnaire_commandes os line session_state d in
   Py.startswith (response r) "ERREUR:" = true /\
   state_after r = session_state /\ disk_after r = d) /\
  (Py.startswith (Py.upper (Py.strip line)) "DOWNLOAD" = false ->
   exists answer,
     handle_line os line session_state d = ([answer], session_state, d) /\
     Py.startswith answer "ERREUR:" = true).
Proof.
  intros H. split; [by apply refused_by_dispatcher|].
  intros Hroute. unfold Serveur.handle_line. rewrite Hroute.
  rewrite <- split_strip in H.
  destruct (refused_by_dispatcher os _ _ _ H) as (Hr & Hst & Hd).
  destruct (gestionnaire_commandes os (Py.strip line) session_state d) as [[answer st'] d'].
  unfold response, state_after, disk_after in *. simpl in Hr, Hst, Hd. subst.
  eexists. split; [done|]. by apply prefix_app_r.
Qed.

(** *** Case of the verb *)

Lemma dispatcher_reads_verb_and_arguments os c1 c2 verb1 verb2 args session_state d :
  Py.split c1 = verb1 :: args -> Py.split c2 = verb2 :: args ->
  Py.upper verb1 = Py.upper verb2 ->
  gestionnaire_commandes os c1 session_state d = gestionnaire_commandes os c2 session_state d.
Proof.
  intros H1 H2 Hverb. unfold Serveur.gestionnaire_commandes.
  rewrite H1, H2, Hverb. cbv zeta.
  repeat match goal with
         | |- context [String.eqb ?a ?b] => destruct (String.eqb a b)
         end; try done.
  all: unfold cmd_open, cmd_create, cmd_rename, cmd_delete, cmd_write,
         Serveur.cmd_begin_upload, cmd_upload_data;
       by destruct args as [|a [|b args]].
Qed.

(** C10.  Two lines with the same arguments whose verbs differ by case only
    are answered alike, in every state: same text sent, same session, same
    disk.  In particular a line is answered as the line with its verb in
    uppercase is. *)
Theorem verb_case_is_ignored os line1 line2 verb1 verb2 args session_state d :
  Py.split line1 = verb1 :: args -> Py.split line2 = verb2 :: args ->
  Py.upper verb1 = Py.upper verb2 ->
  handle_line os line1 session_state d = handle_line os line2 session_state d.
Proof.
  intros H1 H2 Hverb. unfold Serveur.handle_line.
  rewrite (startswith_upper_strip _ _ _ _ H1), (startswith_upper_strip _ _ _ _ H2) by done.
  rewrite Hverb. destruct (Py.startswith _ _).
  - unfold Serveur.cmd_download. rewrite !split_strip, H1, H2.
    by destruct args.
  - rewrite (dispatcher_reads_verb_and_arguments os (Py.strip line1) (Py.strip line2)
               verb1 verb2 args); by rewrite ?split_strip.
Qed.
End ServerFacts.

(** ** The client's upload driver *)

Section ClientFacts.
Import Client.

Context {E : Type}.
Variable send_command : string -> E -> option string * E.
Variable local_files : string -> option (list byte).
Variable DEFAULT_DIR : string.

Abbreviation send_chunks := (send_chunks send_command).
Abbreviation attempt := (attempt send_command local_files).
Abbreviation attempts := (attempts send_command local_files).
Abbreviation upload_file := (upload_file send_command local_files DEFAULT_DIR).









End ClientFacts.

(** * Further properties *)

Ltac reduce_session :=
  cbn [response state_after disk_after fst snd Serveur.transfer_offset Serveur.phase
       Serveur.transfer_file Serveur.transfer_in_progress Serveur.open_file
       Serveur.error_flag Serveur.error_message
       Serveur.h_ino Serveur.h_pos Serveur.h_append Serveur.dir Serveur.inodes negb] in *.

(** ** More on text *)

Section MoreText.
Import Py Serveur.
Local Arguments isspace : simpl never.

Lemma split_words_are_words s : Forall (fun w => is_word w) (split s).
Proof.
  induction s as [|c s IH]; [constructor|]. simpl.
  destruct (isspace c) eqn:Hc; [done|].
  assert (is_word (String c "")) as Hone.
  { simpl. apply andb_prop_intro. by rewrite Hc. }
  destruct (starts_word s).
  - destruct (split s) as [|w ws]; [by constructor|].
    apply Forall_cons in IH as [Hw Hws]. constructor; [|done].
    simpl. apply andb_prop_intro. rewrite Hc. split; [done|by apply is_word_spaceless].
  - by constructor.
Qed.

Lemma decode_encode s : decode (encode s) = s.
Proof. apply String.string_of_list_byte_of_string. Qed.

Lemma encode_decode bs : encode (decode bs) = bs.
Proof. apply String.list_byte_of_string_of_list_byte. Qed.

Lemma app_assoc_s (a b c : string) : (a +:+ b) +:+ c = a +:+ (b +:+ c).
Proof.
  induction a as [|x a IH]; [done|].
  change (String x ((a +:+ b) +:+ c) = String x (a +:+ (b +:+ c))). by f_equal.
Qed.

Lemma app_nil_r_s (a : string) : a +:+ "" = a.
Proof.
  induction a as [|x a IH]; [done|].
  change (String x (a +:+ "") = String x a). by f_equal.
Qed.


(** A line of words separated by single spaces, as [' '.join] builds it,
    is what [strip] leaves of it followed by a newline. *)
Lemma rstrip_join_nl ws :
  Forall (fun w => is_word w) ws -> ws <> [] ->
  rstrip_by isspace (join " " ws +:+ nl) = join " " ws /\ starts_word (join " " ws) = true.
Proof.
  induction 1 as [|w ws Hw Hws IH]; [done|]. intros _. cbv beta in Hw.
  destruct ws as [|w' ws].
  - cbn [join String.concat]. split.
    + rewrite rstrip_spaceless_app by (by apply is_word_spaceless).
      by rewrite app_nil_r_s.
    + rewrite <- (app_nil_r_s w). by apply starts_word_app_word.
  - destruct IH as [IH1 IH2]; [done|].
    change (join " " (w :: w' :: ws)) with (w +:+ " " +:+ join " " (w' :: ws)).
    split; [|by apply starts_word_app_word].
    rewrite app_assoc_s. rewrite rstrip_spaceless_app by (by apply is_word_spaceless).
    f_equal. rewrite app_assoc_s.
    change (" " +:+ ?x) with (String " " x).
    assert (rstrip_by isspace (join " " (w' :: ws) +:+ nl) <> "") as Hne.
    { rewrite IH1. intros Heq. rewrite Heq in IH2. by vm_compute in IH2. }
    cbn [rstrip_by]. rewrite IH1 in Hne |- *. by destruct (join " " (w' :: ws)).
Qed.

Lemma strip_join_nl ws :
  Forall (fun w => is_word w) ws -> ws <> [] ->
  strip (join " " ws +:+ nl) = join " " ws.
Proof.
  intros Hws Hne. destruct (rstrip_join_nl ws Hws Hne) as [H1 H2].
  unfold strip, strip_by.
  assert (lstrip_by isspace (join " " ws +:+ nl) = join " " ws +:+ nl) as ->; [|done].
  destruct (join " " ws) as [|c s]; [done|]. simpl in *.
  by destruct (isspace c).
Qed.

Lemma universal_newlines_id s : no_return s -> universal_newlines s = s.
Proof.
  induction s as [|c s IH]; [done|]. intros [Hc Hs]%andb_prop_elim. simpl.
  destruct (c =? "013")%char; [done|]. by rewrite IH.
Qed.

Lemma no_return_app a b : no_return a -> no_return b -> no_return (a +:+ b).
Proof.
  induction a as [|x a IH]; [done|]. intros [Hx Ha]%andb_prop_elim Hb.
  apply andb_prop_intro. split; [done|by apply IH].
Qed.

Lemma spaceless_no_return s : spaceless s -> no_return s.
Proof.
  induction s as [|c s IH]; [done|]. intros [Hc Hs]%andb_prop_elim.
  apply andb_prop_intro. split; [|by apply IH].
  destruct (Ascii.eqb_spec c "013") as [->|]; done.
Qed.

Lemma no_return_join ws :
  Forall (fun w => is_word w) ws -> no_return (join " " ws).
Proof.
  induction 1 as [|w ws Hw Hws IH]; [done|]. cbv beta in Hw.
  destruct ws as [|w' ws].
  - by apply spaceless_no_return, is_word_spaceless.
  - change (join " " (w :: w' :: ws)) with (w +:+ " " +:+ join " " (w' :: ws)).
    apply no_return_app; [by apply spaceless_no_return, is_word_spaceless|].
    by apply (no_return_app " ").
Qed.
End MoreText.

(** ** The session over a connection *)

Section SessionFacts.
Import Serveur.

Variable DEFAULT_DIR : string.

Ltac coherence :=
  unfold coherent in *; reduce_session;
  repeat match goal with
         | H : negb _ = false |- _ => apply negb_false_iff in H
         | H : negb _ = true |- _ => apply negb_true_iff in H
         end;
  intuition (try done; try congruence; eauto).

Lemma coherent_dispatcher os command st d :
  coherent st ->
  coherent (state_after (gestionnaire_commandes DEFAULT_DIR os command st d)).
Proof.
  intros H.
  unfold gestionnaire_commandes.
  destruct (Py.split command) as [|verb args]; [done|]. cbv zeta.
  repeat match goal with
         | |- context [String.eqb ?a ?b] => destruct (String.eqb a b)
         end; try done.
  - unfold cmd_list. by repeat case_match.
  - unfold cmd_open. repeat case_match; try done. coherence.
  - unfold cmd_create. repeat case_match; try done. coherence.
  - unfold cmd_rename. by repeat case_match.
  - unfold cmd_delete. by repeat case_match.
  - unfold cmd_read. by repeat case_match.
  - unfold cmd_write. by repeat case_match.
  - unfold cmd_close. repeat case_match; try done. coherence.
  - unfold cmd_begin_upload. repeat case_match; try done; coherence.
  - unfold cmd_upload_data, upload_error. repeat case_match; try done; coherence.
  - unfold cmd_upload_end. repeat case_match; try done; coherence.
  - unfold cmd_resume_upload. repeat case_match; try done; coherence.
Qed.

Lemma coherent_handle_line os line st d :
  coherent st -> coherent (handle_line DEFAULT_DIR os line st d).1.2.
Proof.
  intros H. unfold handle_line. destruct (Py.startswith _ _); [done|].
  pose proof (coherent_dispatcher os (Py.strip line) st d H) as H'.
  by destruct (gestionnaire_commandes _ _ _ _ _) as [[? ?] ?].
Qed.

Lemma coherent_serve lines st d :
  coherent st -> coherent (serve DEFAULT_DIR lines st d).1.2.
Proof.
  revert st d. induction lines as [|[os line] lines IH]; intros st d H; [done|].
  cbn [serve]. destruct (line =? "")%string; [done|].
  pose proof (coherent_handle_line os line st d H) as H1.
  destruct (handle_line DEFAULT_DIR os line st d) as [[out st1] d1].
  specialize (IH st1 d1 H1).
  by destruct (serve DEFAULT_DIR lines st1 d1) as [[out' st2] d2].
Qed.

(** X1.  Whatever lines a connection carries and whatever the operating
    system refuses, the session stays coherent: a transfer is in progress
    exactly when a transfer file is held, the error flag is set only during
    a transfer, the error message is empty when the flag is down, no file is
    open in phase ASSOCIATED, and phase TRANSFER_IN_PROGRESS means a transfer
    in progress.  So [RESUME_UPLOAD] never finds the transfer file missing:
    it is answered [RESUME_UPLOAD_OK offset=N] when the error flag is set and
    [ERREUR: Aucun upload à reprendre] when it is not. *)
Theorem sessions_stay_coherent lines d :
  let st := (handle_client DEFAULT_DIR lines d).1.2 in
  coherent st /\
  forall os command verb args d',
    Py.split command = verb :: args -> Py.upper verb = "RESUME_UPLOAD" ->
    response (gestionnaire_commandes DEFAULT_DIR os command st d') =
      if error_flag st then "RESUME_UPLOAD_OK offset=" +:+ pretty (transfer_offset st)
      else "ERREUR: Aucun upload à reprendre".
Proof.
  intros st.
  assert (coherent st) as H.
  { subst st. unfold handle_client.
    assert (coherent initial_state) as H0.
    { unfold coherent, initial_state; reduce_session.
      repeat split; try done; by intros [? ?]. }
    pose proof (coherent_serve lines initial_state d H0) as H.
    by destruct (serve DEFAULT_DIR lines initial_state d) as [[out st'] d']. }
  split; [done|]. intros os command verb args d' Hsplit Hverb.
  rewrite (dispatch_resume_upload _ _ _ _ _ _ _ Hsplit Hverb).
  unfold cmd_resume_upload. destruct (error_flag st) eqn:He; [|done].
  destruct H as (H1 & H2 & _). destruct (proj1 H1 (H2 He)) as [f ->]. done.
Qed.

Lemma sticky_dispatcher os command st d :
  error_flag st = true -> transfer_in_progress st = true ->
  verb_of command <> Some "RESUME_UPLOAD" ->
  error_flag (state_after (gestionnaire_commandes DEFAULT_DIR os command st d)) = true /\
  transfer_in_progress (state_after (gestionnaire_commandes DEFAULT_DIR os command st d))
  = true.
Proof.
  intros He Ht Hverb. unfold verb_of in Hverb. unfold gestionnaire_commandes.
  destruct (Py.split command) as [|verb args]; [done|]. cbv zeta.
  repeat match goal with
         | |- context [String.eqb ?a ?b] => destruct (String.eqb_spec a b)
         end;
    try match goal with H : Py.upper verb = "RESUME_UPLOAD" |- _ => by rewrite H in Hverb end.
  all: unfold cmd_list, cmd_open, cmd_create, cmd_rename, cmd_delete, cmd_read,
         cmd_write, cmd_close, cmd_begin_upload, cmd_upload_data, upload_error,
         cmd_upload_end;
       rewrite ?He, ?Ht; reduce_session; repeat case_match; by reduce_session.
Qed.

Lemma sticky_line os line st d :
  error_flag st = true -> transfer_in_progress st = true ->
  verb_of line <> Some "RESUME_UPLOAD" ->
  error_flag (handle_line DEFAULT_DIR os line st d).1.2 = true /\
  transfer_in_progress (handle_line DEFAULT_DIR os line st d).1.2 = true.
Proof.
  intros He Ht Hverb. unfold handle_line.
  destruct (Py.startswith _ _); [done|].
  unfold verb_of in Hverb. rewrite <- split_strip in Hverb.
  pose proof (sticky_dispatcher os (Py.strip line) st d He Ht Hverb) as H.
  by destruct (gestionnaire_commandes _ _ _ _ _) as [[? ?] ?].
Qed.

(** X2.  Once [cmd_upload_data] has recorded an error, no command but
    [RESUME_UPLOAD] takes it back: after any lines without that verb, a new
    [UPLOAD] included, the error flag is still set, the transfer is still in
    progress, and [UPLOAD_END] is answered [UPLOAD_INTERRUPTED] with nothing
    changed. *)
Theorem interrupted_until_resumed lines st d :
  error_flag st = true -> transfer_in_progress st = true ->
  Forall (fun l => verb_of l.2 <> Some "RESUME_UPLOAD") lines ->
  let r := serve DEFAULT_DIR lines st d in
  error_flag r.1.2 = true /\ transfer_in_progress r.1.2 = true /\
  forall os,
    handle_line DEFAULT_DIR os "UPLOAD_END" r.1.2 r.2
    = (["UPLOAD_INTERRUPTED" +:+ nl], r.1.2, r.2).
Proof.
  intros He Ht Hlines r.
  assert (error_flag r.1.2 = true /\ transfer_in_progress r.1.2 = true) as [He' Ht'].
  { subst r. revert st d He Ht.
    induction Hlines as [|[os line] lines Hline _ IH]; intros st d He Ht; [done|].
    cbn [serve]. destruct (line =? "")%string; [done|].
    destruct (sticky_line os line st d He Ht Hline) as [He1 Ht1].
    destruct (handle_line DEFAULT_DIR os line st d) as [[out st1] d1].
    specialize (IH st1 d1 He1 Ht1).
    by destruct (serve DEFAULT_DIR lines st1 d1) as [[out' st2] d2]. }
  split; [done|]. split; [done|]. intros os.
  destruct (handle_line_dispatch DEFAULT_DIR os "UPLOAD_END" "UPLOAD_END" [] r.1.2 r.2)
    as [Hs ->]; [done..|].
  rewrite (dispatch_upload_end _ _ _ _ _ _ _ Hs eq_refl).
  unfold cmd_upload_end. by rewrite Ht', He'.
Qed.





Lemma split_nonempty line verb args : Py.split line = verb :: args -> (line =? "")%string = false.
Proof. intros H. apply String.eqb_neq. by intros ->. Qed.

Lemma created_file_is_empty d path :
  read_file (open_for_write d path W).1 path = Some [].
Proof.
  unfold open_for_write, read_file. destruct (dir d !! path) as [i|] eqn:Hi; simpl.
  - by rewrite Hi, (content_put d i []).
  - rewrite lookup_insert_eq. unfold content. simpl. by rewrite lookup_insert_eq.
Qed.

Lemma cmd_write_appends verb data filename st d :
  data <> [] -> open_file st = Some filename ->
  let r := cmd_write DEFAULT_DIR None st d (verb :: data) in
  response r = "WRITE_OK " +:+ filename /\ state_after r = st /\
  read_file (disk_after r) (filepath DEFAULT_DIR filename)
  = Some (default [] (read_file d (filepath DEFAULT_DIR filename))
            ++ Py.encode (Py.join " " data +:+ nl)).
Proof.
  intros Hdata Hopen r. subst r.
  unfold cmd_write. rewrite Hopen. destruct data as [|x data]; [done|].
  pose proof (open_for_append d (filepath DEFAULT_DIR filename)) as (Hdir & Happ & Hcontent).
  destruct (open_for_write d (filepath DEFAULT_DIR filename) A) as [d1 f]. reduce_session.
  repeat split.
  unfold file_write, read_file. rewrite Happ. reduce_session.
  change (dir (put d1 (h_ino f) ?x)) with (dir d1).
  by rewrite Hdir, content_put, Hcontent.
Qed.

(** X5.  With no file open, [CREATE name], [WRITE words...], [READ] are
    answered [CREATE_OK name], [WRITE_OK name] and the display of the words
    joined by single spaces; whatever the file held before, it now holds
    these words and a newline, and it is the open file. *)
Theorem create_write_read_round_trip l1 l2 l3 v1 name rest1 v2 data v3 args3 st d :
  Py.split l1 = v1 :: name :: rest1 -> Py.upper v1 = "CREATE" ->
  Py.split l2 = v2 :: data -> data <> [] -> Py.upper v2 = "WRITE" ->
  Py.split l3 = v3 :: args3 -> Py.upper v3 = "READ" ->
  open_file st = None ->
  let r := serve DEFAULT_DIR [(None, l1); (None, l2); (None, l3)] st d in
  r.1.1 = [("CREATE_OK " +:+ name) +:+ nl;
           ("WRITE_OK " +:+ name) +:+ nl;
           ("READ_OK" +:+ nl +:+
            "=== Contenu du fichier: " +:+ name +:+ " ===" +:+ nl +:+
            Py.join " " data +:+ nl +:+
            "===============================") +:+ nl] /\
  read_file r.2 (filepath DEFAULT_DIR name) = Some (Py.encode (Py.join " " data +:+ nl)) /\
  open_file r.1.2 = Some name.
Proof.
  intros Hs1 Hv1 Hs2 Hdata Hv2 Hs3 Hv3 Hopen r. subst r.
  cbn [serve].
  rewrite (split_nonempty _ _ _ Hs1), (split_nonempty _ _ _ Hs2), (split_nonempty _ _ _ Hs3).
  destruct (handle_line_dispatch DEFAULT_DIR None l1 _ _ st d Hs1) as [Hs1' ->];
    [by rewrite Hv1|].
  rewrite (dispatch_create _ _ _ _ _ _ _ Hs1' Hv1).
  unfold cmd_create at 1 2 3. rewrite Hopen. reduce_session. cbv beta iota zeta.
  pose proof (created_file_is_empty d (filepath DEFAULT_DIR name)) as Hnew.
  set (d1 := (open_for_write d (filepath DEFAULT_DIR name) W).1) in *.
  set (st1 := {| open_file := Some name; phase := FILE_OPEN;
                 transfer_in_progress := transfer_in_progress st;
                 transfer_offset := transfer_offset st;
                 transfer_file := transfer_file st;
                 error_flag := error_flag st;
                 error_message := error_message st |}).
  destruct (handle_line_dispatch DEFAULT_DIR None l2 _ _ st1 d1 Hs2) as [Hs2' ->];
    [by rewrite Hv2|].
  rewrite (dispatch_write _ _ _ _ _ _ _ Hs2' Hv2).
  destruct (cmd_write_appends v2 data name st1 d1 Hdata eq_refl) as (Hw1 & Hw2 & Hw3).
  rewrite Hnew in Hw3. cbn [default app] in Hw3.
  destruct (cmd_write DEFAULT_DIR None st1 d1 (v2 :: data)) as [[a2 st2] d2].
  unfold response, state_after, disk_after in Hw1, Hw2, Hw3. cbn [fst snd] in Hw1, Hw2, Hw3.
  subst a2 st2. reduce_session. cbv beta iota zeta.
  destruct (handle_line_dispatch DEFAULT_DIR None l3 _ _ st1 d2 Hs3) as [Hs3' ->];
    [by rewrite Hv3|].
  rewrite (dispatch_read _ _ _ _ _ _ _ Hs3' Hv3).
  unfold cmd_read. cbn [open_file st1]. rewrite Hw3.
  reduce_session. cbv beta iota zeta. cbn [app fst snd].
  split; [|by split].
  assert (Forall (fun w => is_word w) data) as Hwords.
  { pose proof (split_words_are_words l2) as H. rewrite Hs2 in H.
    by apply Forall_cons in H as [_ H]. }
  change (id [] ++ ?x) with x.
  rewrite decode_encode, universal_newlines_id, strip_join_nl; [done..|].
  apply no_return_app; [by apply no_return_join|done].
Qed.






Lemma dispatcher_open_file os command st d :
  let st' := state_after (gestionnaire_commandes DEFAULT_DIR os command st d) in
  open_file st' = open_file st \/
  (open_file st = None /\
   exists verb name rest,
     Py.split command = verb :: name :: rest /\
     (Py.upper verb = "OPEN" \/ Py.upper verb = "CREATE") /\
     open_file st' = Some name) \/
  (is_Some (open_file st) /\ verb_of command = Some "CLOSE" /\ open_file st' = None).
Proof.
  unfold verb_of, gestionnaire_commandes.
  destruct (Py.split command) as [|verb args] eqn:Hs; [by left|]. cbv zeta.
  repeat match goal with
         | |- context [String.eqb ?a ?b] => destruct (String.eqb_spec a b)
         end.
  all: unfold cmd_list, cmd_open, cmd_create, cmd_rename, cmd_delete, cmd_read,
         cmd_write, cmd_close, cmd_begin_upload, cmd_upload_data, upload_error,
         cmd_upload_end, cmd_resume_upload; repeat case_match; subst;
       reduce_session; try (by left).
  - right. left. split; [done|]. eexists _, _, _. split; [done|]. by split; [left|].
  - right. left. split; [done|]. eexists _, _, _. split; [done|]. by split; [right|].
  - right. right. split; [by eexists|]. split; [by f_equal|done].
Qed.

(** X8.  The open file changes in two ways only: from none to the name
    given to an [OPEN] or a [CREATE], and from a name to none by [CLOSE].  A
    file that is open is never replaced by another. *)
Theorem open_file_changes_by_open_create_close os line st d :
  let st' := (handle_line DEFAULT_DIR os line st d).1.2 in
  open_file st' = open_file st \/
  (open_file st = None /\
   exists verb name rest,
     Py.split line = verb :: name :: rest /\
     (Py.upper verb = "OPEN" \/ Py.upper verb = "CREATE") /\
     open_file st' = Some name) \/
  (is_Some (open_file st) /\ verb_of line = Some "CLOSE" /\ open_file st' = None).
Proof.
  unfold handle_line. destruct (Py.startswith _ _); [by left|].
  pose proof (dispatcher_open_file os (Py.strip line) st d) as H.
  unfold verb_of in *. rewrite split_strip in H.
  by destruct (gestionnaire_commandes _ _ _ _ _) as [[? ?] ?].
Qed.
End SessionFacts.

(** ** Numbers in decimal *)

Section NumberFacts.
Import Py Serveur.

Lemma is_digit_facts c :
  is_digit c = true ->
  isspace c = false /\ c_isspace c = false /\ c <> "+"%char /\ c <> "-"%char /\
  (c =? "010")%char = false /\ (c =? "013")%char = false /\ c <> "o"%char /\
  is_continuation c = false.
Proof. destruct c as [[] [] [] [] [] [] [] []]; vm_compute; by repeat split. Qed.

Lemma pretty_N_char_digit d :
  (d < 10)%N ->
  is_digit (pretty_N_char d) = true /\ digit_val (pretty_N_char d) = Some (Z.of_N d).
Proof.
  intros Hd.
  assert (d = 0 \/ d = 1 \/ d = 2 \/ d = 3 \/ d = 4 \/ d = 5 \/ d = 6 \/ d = 7 \/ d = 8
          \/ d = 9)%N as H by lia.
  repeat destruct H as [->|H]; try subst d; by vm_compute.
Qed.

Lemma pretty_N_go_app x s : pretty_N_go x s = pretty_N_go x "" +:+ s.
Proof.
  revert s. induction (N.lt_wf_0 x) as [x _ IH]; intros s.
  assert (x = 0 \/ 0 < x)%N as [->|Hx] by lia; [by rewrite !pretty_N_go_0|].
  rewrite !(pretty_N_go_step x) by done.
  assert (x `div` 10 < x)%N as Hlt by (by apply N.div_lt).
  rewrite (IH _ Hlt (String _ s)), (IH _ Hlt (String _ "")).
  by rewrite app_assoc_s.
Qed.

Lemma pretty_N_go_digits x s :
  all_chars is_digit s -> all_chars is_digit (pretty_N_go x s).
Proof.
  revert s. induction (N.lt_wf_0 x) as [x _ IH]; intros s Hs.
  assert (x = 0 \/ 0 < x)%N as [->|Hx] by lia; [by rewrite pretty_N_go_0|].
  rewrite pretty_N_go_step by done. apply IH; [by apply N.div_lt|].
  apply andb_prop_intro. split; [|done].
  destruct (pretty_N_char_digit (x `mod` 10)%N) as [-> _]; [|done].
  by apply N.mod_lt.
Qed.

Lemma pretty_N_go_nonempty x s : (0 < x)%N -> pretty_N_go x s <> "".
Proof.
  revert s. induction (N.lt_wf_0 x) as [x _ IH]; intros s Hx.
  rewrite pretty_N_go_step by done.
  destruct (N.eq_0_gt_0_cases (x `div` 10)) as [->|Hq].
  - by rewrite pretty_N_go_0.
  - apply IH; [by apply N.div_lt|done].
Qed.

Lemma int_digits_pretty_N_go x :
  (0 < x)%N ->
  exists k, forall s acc prev,
    int_digits (pretty_N_go x s) acc prev = int_digits s (acc * k + Z.of_N x) true.
Proof.
  induction (N.lt_wf_0 x) as [x _ IH]; intros Hx.
  destruct (pretty_N_char_digit (x `mod` 10)%N) as [_ Hd]; [by apply N.mod_lt|].
  pose proof (N.div_mod x 10 ltac:(done)) as Hdm.
  destruct (N.eq_0_gt_0_cases (x `div` 10)) as [Hq|Hq].
  - exists 10%Z. intros s acc prev.
    rewrite pretty_N_go_step, Hq, pretty_N_go_0 by done.
    cbn [int_digits]. rewrite Hd. f_equal. lia.
  - destruct (IH (x `div` 10)%N) as [k Hk]; [by apply N.div_lt|done|].
    exists (10 * k)%Z. intros s acc prev.
    rewrite pretty_N_go_step, Hk by done.
    cbn [int_digits]. rewrite Hd. f_equal. lia.
Qed.

Lemma pretty_N_go_length x s k :
  (x < 10 ^ N.of_nat k)%N -> String.length (pretty_N_go x s) <= String.length s + k.
Proof.
  revert x s. induction k as [|k IH]; intros x s Hx.
  { assert (x = 0%N) as -> by (simpl in Hx; lia). rewrite pretty_N_go_0. lia. }
  assert (x = 0 \/ 0 < x)%N as [->|Hpos] by lia; [rewrite pretty_N_go_0; lia|].
  rewrite pretty_N_go_step by done.
  etrans; [apply IH|simpl; lia].
  rewrite Nat2N.inj_succ, N.pow_succ_r' in Hx.
  apply N.Div0.div_lt_upper_bound. lia.
Qed.

(** What [str(n)] is for a natural number. *)
Lemma pretty_nat_facts (n : nat) :
  all_chars is_digit (pretty n) /\ pretty n <> "" /\
  int_digits (pretty n) 0 false = Some (Z.of_nat n) /\
  (forall k, (N.of_nat n < 10 ^ N.of_nat k)%N -> 0 < k -> String.length (pretty n) <= k).
Proof.
  unfold pretty, pretty_nat, pretty, pretty_N.
  destruct (decide (N.of_nat n = 0)%N) as [Hn|Hn].
  - assert (n = 0) as -> by lia. repeat split; try done; simpl; lia.
  - assert (0 < N.of_nat n)%N as Hpos by lia.
    split; [by apply pretty_N_go_digits|]. split; [by apply pretty_N_go_nonempty|].
    split.
    + destruct (int_digits_pretty_N_go _ Hpos) as [k Hk]. rewrite Hk. simpl.
      f_equal. lia.
    + intros k Hk _. etrans; [by apply (pretty_N_go_length _ _ k)|simpl; lia].
Qed.

Lemma pretty_Z_of_nat (n : nat) : pretty (Z.of_nat n) = pretty n.
Proof.
  unfold pretty at 1, pretty_Z. destruct n as [|n]; [done|].
  simpl. unfold pretty at 2, pretty_nat, pretty at 1, pretty_positive.
  by rewrite <- positive_nat_N, SuccNat2Pos.id_succ.
Qed.

Lemma all_chars_impl (P Q : ascii -> bool) s :
  (forall c, P c = true -> Q c = true) -> all_chars P s -> all_chars Q s.
Proof.
  intros HPQ. induction s as [|c s IH]; [done|]. intros [Hc Hs]%andb_prop_elim.
  apply andb_prop_intro. split; [|by apply IH].
  apply Is_true_true in Hc. by rewrite (HPQ _ Hc).
Qed.

Lemma all_chars_app P a b : all_chars P a -> all_chars P b -> all_chars P (a +:+ b).
Proof.
  induction a as [|x a IH]; [done|]. intros [Hx Ha]%andb_prop_elim Hb.
  apply andb_prop_intro. split; [done|by apply IH].
Qed.

Lemma digits_spaceless s : all_chars is_digit s -> spaceless s.
Proof.
  apply all_chars_impl. intros c Hc.
  by destruct (is_digit_facts c Hc) as (-> & _).
Qed.

Lemma pretty_nat_word (n : nat) : is_word (pretty n).
Proof.
  destruct (pretty_nat_facts n) as (Hd & Hne & _).
  destruct (pretty n) eqn:E; [done|]. by apply (digits_spaceless (String _ _)).
Qed.

Lemma rstrip_by_all sp s :
  all_chars (fun c => negb (sp c)) s -> rstrip_by sp s = s.
Proof.
  induction s as [|c s IH]; [done|]. intros [Hc Hs]%andb_prop_elim.
  simpl. rewrite IH by done. destruct (sp c); [done|]. by destruct s.
Qed.

Lemma rstrip_by_app_blank sp s t :
  all_chars (fun c => negb (sp c)) s -> all_chars sp t ->
  rstrip_by sp (s +:+ t) = s.
Proof.
  intros Hs Ht.
  assert (rstrip_by sp t = "") as Hblank.
  { induction t as [|c t IH]; [done|]. apply andb_prop_elim in Ht as [Hc Ht].
    simpl. rewrite IH by done. by destruct (sp c). }
  induction s as [|c s IH]; [done|]. apply andb_prop_elim in Hs as [Hc Hs].
  change (String c s +:+ t) with (String c (s +:+ t)).
  cbn [rstrip_by]. rewrite IH by done. destruct (sp c); [done|]. by destruct s.
Qed.

(** [int] reads back what [str] prints, blanks after it or not. *)
Lemma int_pretty_blank (n : nat) tail :
  all_chars c_isspace tail -> int (pretty n +:+ tail) = Some (Z.of_nat n).
Proof.
  intros Htail.
  destruct (pretty_nat_facts n) as (Hd & Hne & Hint & _).
  unfold int, strip_by.
  assert (all_chars (fun c => negb (c_isspace c)) (pretty n)) as Hns.
  { revert Hd. apply all_chars_impl. intros c Hc.
    by destruct (is_digit_facts c Hc) as (_ & -> & _). }
  assert (lstrip_by c_isspace (pretty n +:+ tail) = pretty n +:+ tail) as ->.
  { destruct (pretty n) as [|c s]; [done|]. apply andb_prop_elim in Hns as [Hc _].
    change (String c s +:+ tail) with (String c (s +:+ tail)). simpl.
    by destruct (c_isspace c). }
  rewrite rstrip_by_app_blank by done.
  destruct (pretty n) as [|c s] eqn:E; [done|].
  apply andb_prop_elim in Hd as [Hc _]. apply Is_true_true in Hc.
  destruct (is_digit_facts c Hc) as (_ & _ & Hplus & Hminus & _).
  destruct (Ascii.eqb_spec c "+") as [?|_]; [done|].
  destruct (Ascii.eqb_spec c "-") as [?|_]; [done|].
  destruct c as [[] [] [] [] [] [] [] []]; done.
Qed.

Lemma int_pretty_nl (n : nat) : int (pretty n +:+ nl) = Some (Z.of_nat n).
Proof. by apply int_pretty_blank. Qed.

Lemma int_pretty (n : nat) : int (pretty n) = Some (Z.of_nat n).
Proof. rewrite <- (app_nil_r_s (pretty n)). by apply int_pretty_blank. Qed.

End NumberFacts.

(** ** Lines on the wire *)

Section WireFacts.
Import Py Serveur.
Local Arguments isspace : simpl never.



Lemma text_lines_one_line s rest :
  one_line s -> text_lines (s +:+ nl +:+ rest) = (s +:+ nl) :: text_lines rest.
Proof.
  induction s as [|c s IH]; [done|]. intros [Hc Hs]%andb_prop_elim.
  change (String c s +:+ nl +:+ rest) with (String c (s +:+ nl +:+ rest)).
  cbn [text_lines]. rewrite IH by done.
  destruct (c =? "010")%char; [done|]. by destruct (c =? "013")%char.
Qed.

Lemma text_lines_single s : one_line s -> text_lines (s +:+ nl) = [s +:+ nl].
Proof.
  intros Hs. pose proof (text_lines_one_line s "" Hs) as H.
  by rewrite app_nil_r_s in H.
Qed.

Lemma spaceless_one_line s : spaceless s -> one_line s.
Proof.
  apply all_chars_impl. intros c Hc. by destruct c as [[] [] [] [] [] [] [] []].
Qed.

Lemma one_line_app a b : one_line a -> one_line b -> one_line (a +:+ b).
Proof. apply all_chars_app. Qed.

Lemma hex_digit_facts n :
  (n < 16)%N ->
  isspace (hex_digit n) = false /\
  (hex_digit n =? "010")%char = false /\ (hex_digit n =? "013")%char = false.
Proof.
  intros Hn.
  destruct n as [|p]; [by vm_compute|].
  do 4 (destruct p as [p|p|]; try by vm_compute); lia.
Qed.

Lemma hex_spaceless bs : spaceless (hex bs).
Proof.
  induction bs as [|b bs IH]; [done|]. cbn [hex].
  pose proof (Byte.to_N_bounded b) as Hb.
  destruct (hex_digit_facts (Byte.to_N b / 16)) as (H1 & _).
  { apply N.Div0.div_lt_upper_bound. lia. }
  destruct (hex_digit_facts (Byte.to_N b mod 16)) as (H2 & _).
  { by apply N.mod_lt. }
  unfold spaceless in *. cbn [all_chars]. by rewrite H1, H2.
Qed.

Lemma hex_word bs : bs <> [] -> is_word (hex bs).
Proof.
  intros Hbs. pose proof (hex_spaceless bs) as H.
  destruct bs as [|b bs]; [done|]. cbn [hex] in *. done.
Qed.

(** The words of a line built from words with single spaces. *)
Lemma split_words_line ws tail :
  Forall (fun w => is_word w) ws -> blank tail ->
  split (join " " ws +:+ tail) = ws.
Proof.
  intros Hws Htail.
  assert (split tail = []) as Hsplit_tail.
  { rewrite <- (app_nil_r_s tail). by rewrite split_blank_app. }
  assert (starts_word tail = false) as Hst.
  { destruct tail as [|c t]; [done|]. apply andb_prop_elim in Htail as [Hc _].
    simpl. by destruct (isspace c). }
  induction Hws as [|w ws Hw Hws IH]; [done|]. cbv beta in Hw.
  destruct ws as [|w' ws].
  - cbn [join String.concat]. by rewrite split_word_app, Hsplit_tail.
  - change (join " " (w :: w' :: ws)) with (w +:+ " " +:+ join " " (w' :: ws)).
    rewrite !app_assoc_s, split_word_app; [|done..].
    f_equal. change (" " +:+ ?x) with (String " " x). cbn [split].
    by change (isspace " ") with true.
Qed.

(** *** Looking for a separator *)


Lemma contains_app a b p :
  spaceless p -> p <> "" -> starts_word b = false ->
  contains (a +:+ b) p = contains a p || contains b p.
Proof.
  intros Hp Hne Hb. induction a as [|x a IH].
  - change ("" +:+ b) with b. simpl. by destruct p.
  - change (String x a +:+ b) with (String x (a +:+ b)).
    cbn [contains]. rewrite IH.
    change (String x (a +:+ b)) with (String x a +:+ b).
    rewrite prefix_spaceless_app by done. by rewrite orb_assoc.
Qed.

Lemma cut_none s p : contains s p = false -> cut p s = None.
Proof.
  induction s as [|c s IH]; intros H.
  - cbn [contains] in H. apply orb_false_iff in H as [H1 _].
    cbn [cut]. by rewrite H1.
  - cbn [contains] in H. apply orb_false_iff in H as [H1 H2].
    cbn [cut]. rewrite H1. by rewrite IH.
Qed.

Lemma cut_app a b p :
  spaceless p -> starts_word b = false -> contains a p = false ->
  cut p (a +:+ b) =
    match cut p b with Some (x, y) => Some (a +:+ x, y) | None => None end.
Proof.
  intros Hp Hb. induction a as [|x a IH]; intros Ha.
  - change ("" +:+ b) with b. by destruct (cut p b) as [[? ?]|].
  - cbn [contains] in Ha. apply orb_false_iff in Ha as [H1 H2].
    change (String x a +:+ b) with (String x (a +:+ b)).
    cbn [cut]. change (String x (a +:+ b)) with (String x a +:+ b).
    rewrite prefix_spaceless_app, H1, IH by done.
    by destruct (cut p b) as [[? ?]|].
Qed.

Lemma substring_all s : String.substring 0 (String.length s) s = s.
Proof. induction s as [|c s IH]; [done|]. simpl. by rewrite IH. Qed.

Lemma no_letter_o s :
  all_chars (fun c => negb (c =? "o")%char) s -> contains s "offset=" = false.
Proof.
  induction s as [|c s IH]; [done|]. intros [Hc Hs]%andb_prop_elim.
  cbn [contains]. rewrite IH by done.
  cbn [String.prefix]. destruct (ascii_dec "o" c) as [<-|]; [by vm_compute in Hc|done].
Qed.

(** The text after [offset=] in an answer that ends with a number. *)
Lemma split_at_1_offset head (n : nat) :
  contains head "offset=" = false ->
  split_at_1 "offset=" (head +:+ " offset=" +:+ pretty n +:+ nl) = Some (pretty n +:+ nl).
Proof.
  intros Hhead. unfold split_at_1.
  rewrite cut_app by done.
  change (" offset=" +:+ pretty n +:+ nl) with (String " " ("offset=" +:+ pretty n +:+ nl)).
  cbn [cut].
  change (String.prefix "offset=" (String " " ?x)) with false. cbv iota.
  assert (cut "offset=" ("offset=" +:+ pretty n +:+ nl) = Some ("", pretty n +:+ nl)) as ->.
  { set (t := pretty n +:+ nl).
    change ("offset=" +:+ t)
      with (String "o" (String "f" (String "f" (String "s" (String "e" (String "t"
             (String "=" t))))))).
    cbn [cut String.prefix String.length String.substring Nat.sub].
    destruct (ascii_dec "o" "o"); [|done]. destruct (ascii_dec "f" "f"); [|done].
    destruct (ascii_dec "s" "s"); [|done]. destruct (ascii_dec "e" "e"); [|done].
    destruct (ascii_dec "t" "t"); [|done]. destruct (ascii_dec "=" "="); [|done].
    rewrite prefix_nil. by rewrite Nat.sub_0_r, substring_all. }
  rewrite cut_none; [done|]. apply no_letter_o.
  destruct (pretty_nat_facts n) as (Hd & _).
  apply all_chars_app; [|done].
  revert Hd. apply all_chars_impl. intros c Hc.
  destruct (is_digit_facts c Hc) as (_ & _ & _ & _ & _ & _ & Ho & _).
  by destruct (Ascii.eqb_spec c "o").
Qed.

Lemma contains_head prefix remote :
  is_word prefix -> contains prefix "offset=" = false ->
  contains remote "offset=" = false ->
  contains ((prefix +:+ " ") +:+ remote) "offset=" = false.
Proof.
  intros Hp Hc Hr. rewrite app_assoc_s.
  rewrite contains_app, Hc by done.
  change (" " +:+ remote) with (String " " remote). cbn [contains orb].
  rewrite Hr. by change (String.prefix "offset=" (String " " remote)) with false.
Qed.

End WireFacts.

(** ** The client and the server on one connection *)

Section LinkFacts.
Import Serveur.

Variable DEFAULT_DIR : string.

Local Arguments Py.isspace : simpl never.

Lemma starts_word_app_blank s t :
  blank t -> Py.starts_word (s +:+ t) = Py.starts_word s.
Proof.
  intros Ht. destruct s as [|c s]; [|done].
  change ("" +:+ t) with t. destruct t as [|c t]; [done|].
  apply andb_prop_elim in Ht as [Hc _]. simpl. by destruct (Py.isspace c).
Qed.

Lemma split_app_blank s t : blank t -> Py.split (s +:+ t) = Py.split s.
Proof.
  intros Ht. induction s as [|c s IH].
  - change ("" +:+ t) with t. rewrite <- (app_nil_r_s t). by rewrite split_blank_app.
  - change (String c s +:+ t) with (String c (s +:+ t)). cbn [Py.split].
    by rewrite IH, starts_word_app_blank.
Qed.




Lemma data_cmd_words chunk :
  chunk <> [] ->
  one_line (Client.data_cmd chunk) /\
  Py.split (Client.data_cmd chunk) = ["UPLOAD_DATA"; Py.hex chunk].
Proof.
  intros Hc. unfold Client.data_cmd. split.
  - apply (one_line_app "UPLOAD_DATA "); [done|].
    apply spaceless_one_line, hex_spaceless.
  - pose proof (split_words_line ["UPLOAD_DATA"; Py.hex chunk] "") as H.
    rewrite app_nil_r_s in H. apply H; [|done].
    repeat constructor. by apply hex_word.
Qed.


Lemma offset_of_answer head (n : nat) :
  Py.contains head "offset=" = false ->
  Client.offset_of ((head +:+ " offset=" +:+ pretty n) +:+ nl) = Some (Z.of_nat n).
Proof.
  intros Hhead. unfold Client.offset_of.
  rewrite !app_assoc_s, split_at_1_offset by done. cbn [mbind option_bind].
  apply int_pretty_nl.
Qed.



End LinkFacts.

(** *** Upload *)

Section EndToEnd.
Import Serveur.

Variable SERVER_DIR CLIENT_DIR : string.
Variable local_files : string -> option (list byte).





End EndToEnd.

(** *** Download *)

Section DownloadFacts.
Import Serveur.

Variable SERVER_DIR CLIENT_DIR : string.

Local Arguments Py.isspace : simpl never.

Lemma lstrip_spaceless s : spaceless s -> Py.lstrip_by Py.isspace s = s.
Proof.
  destruct s as [|c s]; [done|]. intros [Hc _]%andb_prop_elim. simpl.
  by destruct (Py.isspace c).
Qed.

Lemma word_and_rest_app w rest :
  spaceless w -> Py.starts_word rest = false ->
  Py.word_and_rest (w +:+ rest) = (w, rest).
Proof.
  intros Hw Hrest. induction w as [|c w IH].
  - change ("" +:+ rest) with rest. destruct rest as [|x rest]; [done|].
    simpl in *. by destruct (Py.isspace x).
  - apply andb_prop_elim in Hw as [Hc Hw].
    change (String c w +:+ rest) with (String c (w +:+ rest)).
    cbn [Py.word_and_rest]. rewrite IH by done. by destruct (Py.isspace c).
Qed.

(** A [CHUNK] line of the server, as the client takes it apart. *)
Lemma chunk_line_parts chunk :
  chunk <> [] ->
  (chunk_line chunk =? "")%string = false /\
  Py.strip (chunk_line chunk) = "CHUNK " +:+ Py.hex chunk /\
  Py.split_maxsplit_1 ("CHUNK " +:+ Py.hex chunk) = ["CHUNK"; Py.hex chunk].
Proof.
  intros Hc. pose proof (hex_word chunk Hc) as Hw.
  pose proof (hex_spaceless chunk) as Hs.
  split; [done|]. split.
  - unfold chunk_line.
    change ("CHUNK " +:+ Py.hex chunk +:+ nl)
      with ("" +:+ "CHUNK" +:+ String " " (Py.hex chunk +:+ nl)).
    rewrite strip_decomp by done.
    change ("CHUNK " +:+ Py.hex chunk) with ("CHUNK" +:+ String " " (Py.hex chunk)).
    f_equal. cbn [Py.rstrip_by]. rewrite rstrip_spaceless_app by done.
    change (Py.rstrip_by Py.isspace nl) with "". rewrite app_nil_r_s.
    by destruct (Py.hex chunk).
  - unfold Py.split_maxsplit_1.
    change ("CHUNK " +:+ Py.hex chunk) with ("CHUNK" +:+ String " " (Py.hex chunk)).
    rewrite lstrip_word_app by done.
    assert (Py.word_and_rest ("CHUNK" +:+ String " " (Py.hex chunk))
            = ("CHUNK", String " " (Py.hex chunk))) as Hwr.
    { by apply word_and_rest_app. }
    change ("CHUNK" +:+ String " " (Py.hex chunk))
      with (String "C" ("HUNK" +:+ String " " (Py.hex chunk))) in *.
    cbv iota. rewrite Hwr. cbn [Py.lstrip_by]. change (Py.isspace " ") with true. cbv iota.
    rewrite lstrip_spaceless by done. by destruct (Py.hex chunk).
Qed.

(** Appending through a fresh append handle. *)
Lemma append_to_file d path bs :
  let r := open_for_write d path A in
  read_file (file_write r.1 r.2 bs).1 path = Some (default [] (read_file d path) ++ bs).
Proof.
  pose proof (open_for_append d path) as (Hdir & Happ & Hcontent).
  destruct (open_for_write d path A) as [d1 f]. cbn [fst snd] in *.
  unfold file_write, read_file. rewrite Happ. cbn [fst].
  change (dir (put d1 (h_ino f) ?x)) with (dir d1).
  by rewrite Hdir, content_put, Hcontent.
Qed.

Lemma download_data_granted d path offset chunk :
  (0 <= offset < 2 ^ 63)%Z ->
  let r := Client.download_data Client.Granted d path offset (Py.hex chunk) in
  r.1.1 = "DOWNLOAD_DATA_OK offset=" +:+ pretty (offset + Z.of_nat (length chunk))%Z /\
  r.1.2 = (offset + Z.of_nat (length chunk))%Z /\
  read_file r.2 path = Some (default [] (read_file d path) ++ chunk).
Proof.
  intros Hoff r. subst r. unfold Client.download_data.
  rewrite fromhex_hex. pose proof (append_to_file d path chunk) as Happend.
  destruct (open_for_write d path A) as [d1 f]. rewrite seek_error_none by done.
  by cbn [fst snd] in *.
Qed.

(** The reading loop of the client over the lines the server sends for the
    blocks of a file. *)
Lemma receive_chunks chunks path offset d :
  Forall (fun chunk => chunk <> []) chunks ->
  (0 <= offset)%Z -> (offset + Z.of_nat (length (concat chunks)) < 2 ^ 63)%Z ->
  let r := Client.receive
             (map (fun line => (Client.Granted, line))
                (map chunk_line chunks ++ ["DOWNLOAD_END" +:+ nl]))
             path offset d in
  r.1.1 = Client.Ended /\
  r.1.2 = (offset + Z.of_nat (length (concat chunks)))%Z /\
  default [] (read_file r.2 path) = default [] (read_file d path) ++ concat chunks /\
  (chunks = [] -> r.2 = d) /\
  (chunks <> [] -> is_Some (read_file r.2 path)).
Proof.
  intros Hchunks. revert offset d.
  induction Hchunks as [|chunk chunks Hc _ IH]; intros offset d Hpos Hbound.
  { cbn. rewrite app_nil_r, Z.add_0_r. by repeat split. }
  cbn [concat] in Hbound. rewrite length_app in Hbound.
  destruct (chunk_line_parts chunk Hc) as (Hne & Hstrip & Hparts).
  destruct (download_data_granted d path offset chunk) as (Hr1 & Hr2 & Hr3); [lia|].
  cbn [map app Client.receive]. rewrite Hne, Hstrip.
  change (Py.startswith ("CHUNK " +:+ Py.hex chunk) "CHUNK") with true. cbv iota.
  rewrite Hparts.
  destruct (Client.download_data Client.Granted d path offset (Py.hex chunk))
    as [[data_response offset1] d1].
  cbn [fst snd] in Hr1, Hr2, Hr3. subst data_response offset1.
  change (Py.startswith ("DOWNLOAD_DATA_OK offset=" +:+ ?x) "DOWNLOAD_ERROR") with false.
  cbv iota.
  destruct (IH (offset + Z.of_nat (length chunk))%Z d1) as (H1 & H2 & H3 & H4 & H5);
    [lia..|].
  cbn [map app] in H1, H2, H3, H4, H5 |- *.
  destruct (Client.receive _ path _ d1) as [[res offset2] d2].
  cbn [fst snd] in *. subst res offset2.
  cbn [concat]. rewrite length_app.
  split; [done|]. split; [lia|]. split; [|split; [done|]].
  - rewrite H3, Hr3. cbn [from_option id]. by rewrite <- app_assoc.
  - intros _. destruct chunks as [|c2 chunks].
    + rewrite (H4 eq_refl), Hr3. by eexists.
    + by apply H5.
Qed.

(** X11.  [download_data] on text that decodes, the operating system
    granting the calls and the offset being one [seek] accepts: the bytes are
    appended at the end of the local file (created when absent) whatever the
    offset is, and the answer and the offset returned are the offset given
    plus their number.  On text that does not decode the answer is
    [DOWNLOAD_ERROR ... offset=<offset>], the offset is returned as given and
    nothing is written, the file not even created.  An offset that [seek]
    refuses gives the same answer, after the file was opened: it exists
    afterwards, with the bytes it had. *)
Theorem download_data_appends os d local_full_path offset chunk_hex :
  let r := Client.download_data os d local_full_path offset chunk_hex in
  (forall chunk_bytes,
     Py.fromhex chunk_hex = inr chunk_bytes -> os = Client.Granted ->
     (0 <= offset < 2 ^ 63)%Z ->
     r.1.1 = "DOWNLOAD_DATA_OK offset="
               +:+ pretty (offset + Z.of_nat (length chunk_bytes))%Z /\
     r.1.2 = (offset + Z.of_nat (length chunk_bytes))%Z /\
     read_file r.2 local_full_path
     = Some (default [] (read_file d local_full_path) ++ chunk_bytes)) /\
  (forall e,
     Py.fromhex chunk_hex = inl e ->
     r = ("DOWNLOAD_ERROR " +:+ e +:+ " offset=" +:+ pretty offset, offset, d)) /\
  (forall chunk_bytes e,
     Py.fromhex chunk_hex = inr chunk_bytes -> os = Client.Granted ->
     Py.seek_error offset = Some e ->
     r.1 = ("DOWNLOAD_ERROR " +:+ e +:+ " offset=" +:+ pretty offset, offset) /\
     read_file r.2 local_full_path = Some (default [] (read_file d local_full_path))).
Proof.
  intros r. subst r. unfold Client.download_data. split; [|split].
  - intros chunk_bytes -> -> Hoffset.
    pose proof (append_to_file d local_full_path chunk_bytes) as Happend.
    destruct (open_for_write d local_full_path A) as [d1 f].
    by rewrite seek_error_none.
  - by intros e ->.
  - intros chunk_bytes e -> -> Hseek.
    pose proof (open_for_append d local_full_path) as (Hdir & _ & Hcontent).
    destruct (open_for_write d local_full_path A) as [d1 f].
    rewrite Hseek. cbn [fst snd] in *. split; [done|].
    unfold read_file at 1. by rewrite Hdir, Hcontent.
Qed.


Lemma text_lines_concat ls :
  Forall (fun l => exists s, l = s +:+ nl /\ one_line s) ls ->
  Py.text_lines (String.concat "" ls) = ls.
Proof.
  induction 1 as [|l ls (s & -> & Hs) _ IH]; [done|].
  destruct ls as [|l' ls].
  - cbn [String.concat]. by apply text_lines_single.
  - change (String.concat "" ((s +:+ nl) :: l' :: ls))
      with ((s +:+ nl) +:+ String.concat "" (l' :: ls)).
    by rewrite app_assoc_s, text_lines_one_line, IH.
Qed.

(** What the server sends for a download request, as in [cmd_download]. *)
Lemma download_answer line verb filename offset rest (n : nat) data st d :
  Py.split line = verb :: filename :: offset :: rest ->
  Py.startswith (Py.upper verb) "DOWNLOAD" = true ->
  Py.int offset = Some (Z.of_nat n) -> (Z.of_nat n < 2 ^ 63)%Z ->
  read_file d (filepath SERVER_DIR filename) = Some data ->
  handle_line SERVER_DIR None line st d =
    (["DOWNLOAD_READY " +:+ filename +:+ " offset=" +:+ pretty (Z.of_nat n) +:+ nl]
       ++ map chunk_line (Py.read_blocks BLOCK_SIZE (drop n data))
       ++ ["DOWNLOAD_END" +:+ nl], st, d).
Proof.
  intros Hsplit Hverb Hint Hn Hdata. unfold handle_line.
  rewrite (startswith_upper_strip _ _ _ _ Hsplit), Hverb by done.
  unfold cmd_download, path_exists, read_file in *.
  rewrite split_strip, Hsplit, Hint.
  destruct (dir d !! filepath SERVER_DIR filename); [|done].
  injection Hdata as <-. cbn [negb default].
  rewrite seek_error_none by lia. by rewrite Nat2Z.id.
Qed.

Lemma download_cmd_words remote (n : nat) :
  is_word remote ->
  one_line ("DOWNLOAD " +:+ remote +:+ " " +:+ pretty n) /\
  Py.split (Client.download_cmd remote n) = ["DOWNLOAD"; remote; pretty n].
Proof.
  intros Hw. pose proof (pretty_nat_word n) as Hn. split.
  - apply (one_line_app "DOWNLOAD "); [done|].
    apply one_line_app; [by apply spaceless_one_line, is_word_spaceless|].
    apply (one_line_app " "); [done|].
    by apply spaceless_one_line, is_word_spaceless.
  - pose proof (split_words_line ["DOWNLOAD"; remote; pretty n] nl) as H.
    cbn [Py.join String.concat] in H. rewrite !app_assoc_s in H.
    apply H; [|done]. by repeat constructor.
Qed.

(** X12.  The client's [download_file] against the server's loop, for a
    name of one word that the server holds: one request is sent, with the
    size of the local file as offset, and the function ends on
    [DOWNLOAD_END].  The local file then holds the bytes it had followed by
    the remote bytes from that size on: the remote file, when what it had is
    a shorter prefix of it.  When the remote file is not longer than the
    local one nothing is written, and a local file that is absent stays
    absent.  The server's session and disk do not change. *)
Theorem download_fetches_the_remote_file
    turns fin remote_filename local_filepath data d p :
  is_word remote_filename ->
  read_file (Link.disk_of p) (filepath SERVER_DIR remote_filename) = Some data ->
  Link.unread p = "" ->
  let local_full_path :=
    Py.os_path_join (if (local_filepath =? "")%string then CLIENT_DIR else local_filepath)
      remote_filename in
  let old := default [] (read_file d local_full_path) in
  (Z.of_nat (length old) < 2 ^ 63)%Z ->
  (Z.of_nat (length data) < 2 ^ 63)%Z ->
  let r := Client.download_file (Link.exchange SERVER_DIR fin) CLIENT_DIR (S turns)
             remote_filename local_filepath d p in
  r.1.1.1 = [Client.download_cmd remote_filename (length old)] /\
  r.1.1.2 = Some Client.Downloaded /\
  default [] (read_file r.1.2 local_full_path) = old ++ drop (length old) data /\
  (take (length old) data = old -> length old < length data ->
   read_file r.1.2 local_full_path = Some data) /\
  (length data <= length old -> r.1.2 = d) /\
  Link.session_of r.2 = Link.session_of p /\ Link.disk_of r.2 = Link.disk_of p.
Proof.
  intros Hword Hremote Hunread local_full_path old Hold Hdata r. subst r.
  unfold Client.download_file. fold local_full_path.
  cbn [Client.download_loop]. change (Client.max_attempts <=? 0)%nat with false. cbv iota.
  assert ((if path_exists d local_full_path then getsize d local_full_path else 0)
          = length old) as ->.
  { subst old. unfold path_exists, getsize, read_file.
    by destruct (dir d !! local_full_path). }
  set (n := length old) in *.
  destruct (download_cmd_words remote_filename n Hword) as [Hline Hsplit].
  (* the request at the server *)
  unfold Link.exchange, Link.deliver.
  assert (Py.text_lines (Client.download_cmd remote_filename n)
          = [Client.download_cmd remote_filename n]) as ->.
  { unfold Client.download_cmd.
    rewrite <- !app_assoc_s. rewrite <- !app_assoc_s in Hline.
    by apply text_lines_single. }
  cbn [map serve]. rewrite (split_nonempty _ _ _ Hsplit).
  rewrite (download_answer _ _ _ _ _ n data _ _ Hsplit eq_refl (int_pretty n) Hold Hremote).
  cbv beta iota zeta. cbn [fst snd Link.unread Link.session_of Link.disk_of].
  rewrite Hunread, app_nil_r. change ("" +:+ ?x) with x.
  set (chunks := Py.read_blocks BLOCK_SIZE (drop n data)).
  assert (Forall (fun chunk => chunk <> []) chunks) as Hchunks.
  { eapply Forall_impl; [apply read_blocks_bounded|].
    intros chunk [Hpos _] ->. simpl in Hpos. lia. }
  assert (concat chunks = drop n data) as Hconcat.
  { apply read_blocks_concat. unfold BLOCK_SIZE. lia. }
  rewrite text_lines_concat.
  2:{ apply Forall_app. split; [|apply Forall_app; split].
      - apply Forall_singleton.
        exists ("DOWNLOAD_READY " +:+ remote_filename +:+ " offset=" +:+ pretty (Z.of_nat n)).
        split; [by rewrite !app_assoc_s|].
        apply (one_line_app "DOWNLOAD_READY "); [done|].
        apply one_line_app; [by apply spaceless_one_line, is_word_spaceless|].
        apply (one_line_app " offset="); [done|].
        rewrite pretty_Z_of_nat.
        by apply spaceless_one_line, is_word_spaceless, pretty_nat_word.
      - apply Forall_map. eapply Forall_impl; [exact Hchunks|].
        intros chunk _. exists ("CHUNK " +:+ Py.hex chunk).
        split; [unfold chunk_line; by rewrite !app_assoc_s|].
        apply (one_line_app "CHUNK "); [done|].
        apply spaceless_one_line, hex_spaceless.
      - apply Forall_singleton. by exists "DOWNLOAD_END". }
  (* the lines at the client *)
  cbn [map app].
  assert (Py.startswith
            (Py.strip ("DOWNLOAD_READY " +:+ remote_filename +:+ " offset="
                         +:+ pretty (Z.of_nat n) +:+ nl)) "DOWNLOAD_READY" = true) as ->.
  { change ("DOWNLOAD_READY " +:+ ?x) with ("" +:+ "DOWNLOAD_READY" +:+ String " " x).
    rewrite strip_decomp by done. unfold Py.startswith.
    rewrite <- (app_nil_r_s "DOWNLOAD_READY") at 2. by apply prefix_app_r. }
  cbn [negb].
  destruct (receive_chunks chunks local_full_path (Z.of_nat n) d Hchunks)
    as (H1 & H2 & H3 & H4 & H5); [lia|..].
  { rewrite Hconcat, length_drop. lia. }
  destruct (Client.receive _ local_full_path (Z.of_nat n) d) as [[res offset'] d'].
  cbn [fst snd] in *. subst res.
  rewrite Hconcat in H3. fold old in H3.
  split; [done|]. split; [done|]. split; [done|]. split; [|split; [|done]].
  - intros Hprefix Hlt.
    destruct H5 as [bs Hbs].
    { intros Hnil. rewrite Hnil in Hconcat. symmetry in Hconcat.
      apply (f_equal length) in Hconcat. rewrite length_drop in Hconcat. simpl in Hconcat.
      lia. }
    rewrite Hbs in H3. cbn [from_option id] in H3.
    assert (bs = data) as <-; [|exact Hbs].
    rewrite H3. rewrite <- Hprefix at 1. apply take_drop.
  - intros Hle. apply H4.
    assert (drop n data = []) as Hnil by (apply drop_ge; lia).
    subst chunks. rewrite Hnil. done.
Qed.

End DownloadFacts.

(** *** The attempts of a download *)

Section RetryFacts.
Import Serveur.

Context {E : Type}.
Variable exchange :
  string -> E -> option (list (Client.local_io * string) * Client.ending) * E.
Variable CLIENT_DIR : string.

Lemma download_loop_astray turns path remote d e :
  (forall request e0, exists lines fin e1,
     exchange request e0 = (Some (lines, fin), e1) /\ goes_astray lines) ->
  let r := Client.download_loop exchange turns 0 path remote d e in
  r.1.1.2 = None /\ length r.1.1.1 = turns /\ r.1.2 = d.
Proof.
  intros Hpeer. revert e. induction turns as [|turns IH]; intros e; [done|].
  cbn [Client.download_loop]. change (Client.max_attempts <=? 0)%nat with false. cbv iota.
  cbv zeta.
  match goal with |- context [exchange ?request e] =>
    destruct (Hpeer request e) as (lines & fin & e1 & -> & Hlines) end.
  destruct Hlines as (os & header & os' & stray & rest & -> & Hready & Hne & Hc & Hend).
  rewrite Hready. cbn [negb Client.receive].
  rewrite (proj2 (String.eqb_neq _ _) Hne), Hc, Hend.
  specialize (IH e1).
  destruct (Client.download_loop exchange turns 0 path remote d e1) as [[[sent out] d'] e2].
  cbn [fst snd length] in *. destruct IH as (-> & -> & ->). done.
Qed.

(** The turns of [download_file] that count: when every request is answered
    by nothing but a broken stream, or not sent at all, five requests are
    made and the function gives up. *)
Lemma download_loop_broken turns attempt path remote d e :
  (forall request e0, exists e1,
     exchange request e0 = (None, e1) \/
     exchange request e0 = (Some ([], Client.Broken), e1)) ->
  Client.max_attempts - attempt <= turns ->
  let r := Client.download_loop exchange turns attempt path remote d e in
  r.1.1.2 = Some Client.DownloadFailure /\
  length r.1.1.1 = Client.max_attempts - attempt /\ r.1.2 = d.
Proof.
  intros Hpeer. revert attempt e.
  induction turns as [|turns IH]; intros attempt e Hturns.
  { cbn [Client.download_loop].
    destruct (Client.max_attempts <=? attempt)%nat eqn:Hle.
    - apply Nat.leb_le in Hle. cbn [fst snd length]. repeat split; try done. lia.
    - apply Nat.leb_gt in Hle. lia. }
  cbn [Client.download_loop].
  destruct (Client.max_attempts <=? attempt)%nat eqn:Hle.
  { apply Nat.leb_le in Hle. cbn [fst snd length]. repeat split; try done. lia. }
  apply Nat.leb_gt in Hle. cbv zeta.
  match goal with |- context [exchange ?request e] =>
    destruct (Hpeer request e) as (e1 & [-> | ->]) end.
  all: specialize (IH (S attempt) e1 ltac:(lia));
    destruct (Client.download_loop exchange turns (S attempt) path remote d e1)
      as [[[sent out] d'] e2];
    cbn [fst snd length] in *; destruct IH as (-> & -> & ->);
    repeat split; try done; lia.
Qed.

(** X13.  [download_file] counts an attempt when an exception is raised,
    and only then.  Against a peer whose streams break before a first line,
    or that cannot be sent to, it makes five requests and gives up.  Against
    a peer that answers every request with [DOWNLOAD_READY] and then a line
    that is neither a [CHUNK] nor [DOWNLOAD_END], every turn ends by the
    [break] and the next one starts with the same count: the function has
    not returned after any number of turns, each of which sends a
    request. *)
Theorem download_counts_only_exceptions remote_filename local_filepath d e :
  ((forall request e0, exists e1,
      exchange request e0 = (None, e1) \/
      exchange request e0 = (Some ([], Client.Broken), e1)) ->
   forall turns, 5 <= turns ->
     let r := Client.download_file exchange CLIENT_DIR turns
                remote_filename local_filepath d e in
     r.1.1.2 = Some Client.DownloadFailure /\ length r.1.1.1 = 5 /\ r.1.2 = d) /\
  ((forall request e0, exists lines fin e1,
      exchange request e0 = (Some (lines, fin), e1) /\ goes_astray lines) ->
   forall turns,
     let r := Client.download_file exchange CLIENT_DIR turns
                remote_filename local_filepath d e in
     r.1.1.2 = None /\ length r.1.1.1 = turns /\ r.1.2 = d).
Proof.
  split.
  - intros Hpeer turns Hturns. unfold Client.download_file.
    by apply (download_loop_broken turns 0).
  - intros Hpeer turns. unfold Client.download_file. by apply download_loop_astray.
Qed.

End RetryFacts.

(** ** More on the server *)

Section MoreServerFacts.
Import Serveur.

Variable DEFAULT_DIR : string.

Local Arguments Py.isspace : simpl never.


(** X15.  The connection loop takes for a download every line whose first
    word begins with DOWNLOAD, in any case, and [cmd_download] does not look
    at that word again: two such lines with the same arguments are answered
    alike, and neither changes the session or the disk. *)
Theorem download_is_chosen_by_prefix os line1 line2 verb1 verb2 args st d :
  Py.split line1 = verb1 :: args -> Py.split line2 = verb2 :: args ->
  Py.startswith (Py.upper verb1) "DOWNLOAD" = true ->
  Py.startswith (Py.upper verb2) "DOWNLOAD" = true ->
  handle_line DEFAULT_DIR os line1 st d = handle_line DEFAULT_DIR os line2 st d /\
  (handle_line DEFAULT_DIR os line1 st d).1.2 = st /\
  (handle_line DEFAULT_DIR os line1 st d).2 = d.
Proof.
  intros H1 H2 Hv1 Hv2. unfold handle_line.
  rewrite (startswith_upper_strip _ _ _ _ H1), (startswith_upper_strip _ _ _ _ H2) by done.
  rewrite Hv1, Hv2. split; [|done].
  unfold cmd_download. rewrite !split_strip, H1, H2. by destruct args.
Qed.

(** *** LIST *)






End MoreServerFacts.

(** ** Blocks *)

Section BlockFacts.
Import Serveur.

Lemma read_loop_lookup size fuel data i chunk :
  0 < size -> length data <= fuel ->
  Py.read_loop size fuel data !! i = Some chunk ->
  chunk = take size (drop (i * size) data) /\ i * size < length data.
Proof.
  intros Hsize. revert data i. induction fuel as [|fuel IH]; intros data i Hlen; [done|].
  cbn [Py.read_loop].
  destruct (take size data) as [|x xs] eqn:Htake; [done|].
  assert (data <> []) as Hne by (intros ->; by rewrite take_nil in Htake).
  destruct i as [|i].
  - intros [= <-]. rewrite drop_0, Htake. split; [done|].
    destruct data; [done|]. simpl. lia.
  - cbn [lookup list_lookup]. intros H.
    apply IH in H as [-> Hi].
    + rewrite drop_drop, length_drop in *. split; [f_equal; f_equal; lia|]. simpl. lia.
    + rewrite length_drop. destruct data; [done|]. simpl in *. lia.
Qed.

Lemma read_loop_length size fuel data :
  0 < size -> length data <= fuel ->
  length data <= length (Py.read_loop size fuel data) * size < length data + size.
Proof.
  intros Hsize. revert data. induction fuel as [|fuel IH]; intros data Hlen.
  { destruct data; simpl in *; lia. }
  cbn [Py.read_loop].
  destruct (take size data) as [|x xs] eqn:Htake.
  { apply take_nil_inv in Htake as ->; [|done]. simpl. lia. }
  assert (data <> []) as Hne by (intros ->; by rewrite take_nil in Htake).
  cbn [length]. specialize (IH (drop size data)).
  rewrite length_drop in IH.
  assert (0 < length data) as Hpos by (destruct data; [done|simpl; lia]).
  specialize (IH ltac:(lia)).
  set (blocks := length (Py.read_loop size fuel (drop size data))) in *.
  clearbody blocks. destruct blocks as [|blocks]; [simpl in *; lia|].
  rewrite !Nat.mul_succ_l in *. nia.
Qed.

(** X17.  The blocks read by the loop [chunk = f.read(size)] of both
    programs: block [i] is the [size] bytes found at [i * size], fewer for
    the last one; there are as many blocks as [size] goes into the length,
    rounded up; every block but the last has exactly [size] bytes. *)
Theorem blocks_are_full_but_the_last size data :
  0 < size ->
  let chunks := Py.read_blocks size data in
  (forall i chunk, chunks !! i = Some chunk ->
     chunk = take size (drop (i * size) data) /\ i * size < length data) /\
  length data <= length chunks * size < length data + size /\
  (forall i chunk, chunks !! i = Some chunk -> S i < length chunks ->
     length chunk = size).
Proof.
  intros Hsize chunks. subst chunks. unfold Py.read_blocks.
  pose proof (read_loop_length size (length data) data Hsize (le_n _)) as Hlen.
  split; [|split; [done|]].
  - intros i chunk. by apply read_loop_lookup.
  - intros i chunk Hi Hlast.
    apply read_loop_lookup in Hi as [-> Hlt]; [|done..].
    rewrite length_take, length_drop.
    assert (S i * size <= length (Py.read_loop size (length data) data) * size - size)
      as H by nia.
    nia.
Qed.

End BlockFacts.

(** ** What crosses the wire *)

Section WireTheorems.
Import Serveur.

(** X18.  The numbers of the protocol as they are printed on one side and
    read on the other.  The offset the server prints in [UPLOAD_READY],
    [UPLOAD_RESUME] (for a file name without [offset=]), [UPLOAD_DATA_OK]
    and [RESUME_UPLOAD_OK] is the number the client's [offset_of] reads in
    the answer; the offset the client prints in its [DOWNLOAD] request is
    the number the server's [int] reads in its third word. *)
Theorem offsets_cross_the_wire (n : nat) name :
  (Py.contains name "offset=" = false ->
   Client.offset_of (("UPLOAD_READY " +:+ name +:+ " offset=" +:+ pretty n) +:+ nl)
   = Some (Z.of_nat n) /\
   Client.offset_of (("UPLOAD_RESUME " +:+ name +:+ " offset=" +:+ pretty n) +:+ nl)
   = Some (Z.of_nat n)) /\
  Client.offset_of (("UPLOAD_DATA_OK offset=" +:+ pretty n) +:+ nl) = Some (Z.of_nat n) /\
  Client.offset_of (("RESUME_UPLOAD_OK offset=" +:+ pretty n) +:+ nl) = Some (Z.of_nat n) /\
  (is_word name ->
   exists word,
     Py.split (Client.download_cmd name n) = ["DOWNLOAD"; name; word] /\
     Py.int word = Some (Z.of_nat n)).
Proof.
  split; [|split; [|split]].
  - intros Hname.
    pose proof (offset_of_answer ("UPLOAD_READY " +:+ name) n) as H1.
    pose proof (offset_of_answer ("UPLOAD_RESUME " +:+ name) n) as H2.
    rewrite !app_assoc_s in H1, H2. rewrite !app_assoc_s.
    split; [apply H1|apply H2].
    + by apply (contains_head "UPLOAD_READY").
    + by apply (contains_head "UPLOAD_RESUME").
  - by apply (offset_of_answer "UPLOAD_DATA_OK").
  - by apply (offset_of_answer "RESUME_UPLOAD_OK").
  - intros Hw. exists (pretty n). split; [|apply int_pretty].
    by apply download_cmd_words.
Qed.

(** X19.  The blocks of the protocol as they are written on one side and
    read on the other.  The line [UPLOAD_DATA <hex>] the client makes of a
    block that is not empty carries that block for the server; the line
    [CHUNK <hex>] the server makes of it is taken by the client for a block,
    cut in two words, the second of which decodes to the block.  The line
    made of an empty block carries no data. *)
Theorem chunks_cross_the_wire chunk :
  chunk <> [] ->
  payload (Client.data_cmd chunk +:+ nl) = Some chunk /\
  Py.startswith (Py.strip (chunk_line chunk)) "CHUNK" = true /\
  (exists chunk_hex,
     Py.split_maxsplit_1 (Py.strip (chunk_line chunk)) = ["CHUNK"; chunk_hex] /\
     Py.fromhex chunk_hex = inr chunk) /\
  payload (Client.data_cmd []) = None.
Proof.
  intros Hc. destruct (data_cmd_words chunk Hc) as [_ Hsplit].
  destruct (chunk_line_parts chunk Hc) as (_ & Hstrip & Hparts).
  split; [|split; [|split; [|done]]].
  - unfold payload. rewrite split_app_blank, Hsplit by done.
    cbn [Py.join String.concat]. by rewrite fromhex_hex.
  - by rewrite Hstrip.
  - exists (Py.hex chunk). rewrite Hstrip. split; [done|apply fromhex_hex].
Qed.

End WireTheorems.

(** * Runs on concrete inputs *)

Import Serveur Scenarios.

(** Python's built-ins, on inputs whose results were read off CPython 3.11. *)
Example split_words :
  Py.split (" a" +:+ String "009" "b  c" +:+ nl) = ["a"; "b"; "c"].
Proof. by vm_compute. Qed.

Example strip_keeps_inner_blanks : Py.strip "  x  y " = "x  y".
Proof. by vm_compute. Qed.

Example int_literals :
  Py.int (" 5" +:+ nl) = Some 5%Z /\ Py.int "+5" = Some 5%Z /\
  Py.int "-3" = Some (-3)%Z /\ Py.int "007" = Some 7%Z /\
  Py.int "1_0" = Some 10%Z /\ Py.int "1__0" = None /\ Py.int "_1" = None /\
  Py.int "1_" = None /\ Py.int "+ 5" = None /\ Py.int "" = None /\
  Py.int (String "028" "1") = None.
Proof. by vm_compute. Qed.

Example fromhex_texts :
  Py.fromhex "48656c6c6f" = inr [x48; x65; x6c; x6c; x6f] /\
  Py.fromhex "48 65" = inr [x48; x65] /\
  Py.fromhex "" = inr [] /\
  Py.fromhex "ZZZ" = inl "non-hexadecimal number found in fromhex() arg at position 0" /\
  Py.fromhex "abc" = inl "non-hexadecimal number found in fromhex() arg at position 3" /\
  Py.fromhex "4 8" = inl "non-hexadecimal number found in fromhex() arg at position 1" /\
  Py.fromhex "48 6" = inl "non-hexadecimal number found in fromhex() arg at position 4" /\
  Py.fromhex "48é" = inl "non-hexadecimal number found in fromhex() arg at position 2".
Proof. by vm_compute. Qed.

Example split_at_offset :
  Py.split_at_1 "offset=" "UPLOAD_READY offset=3x offset=0" = Some "3x " /\
  Py.split_at_1 "offset=" "abc" = None /\
  Py.split_at_1 "XX" "aXXbXXXc" = Some "b".
Proof. by vm_compute. Qed.

Example joined_paths :
  Py.os_path_join "/srv/data" "a" = "/srv/data/a" /\
  Py.os_path_join "/srv/data" "/etc/x" = "/etc/x" /\
  Py.os_path_join "/" "data" = "/data" /\
  Client.basename "a/b" = "b" /\ Client.basename "a/" = "" /\ Client.basename "x" = "x".
Proof. by vm_compute. Qed.

(** The unit tests of the repository, on the model. *)
Example test_cmd_create_and_list :
  answers ["CREATE testfile.txt"; "LIST"]
  = ["CREATE_OK testfile.txt" +:+ nl;
     "LIST_OK" +:+ nl +:+ "=== Liste des fichiers ===" +:+ nl +:+ "  - testfile.txt" +:+ nl
       +:+ "===========================" +:+ nl].
Proof. by vm_compute. Qed.

Example test_cmd_open_nonexistent :
  answers ["OPEN nonexistent.txt"]
  = ["ERREUR: Le fichier 'nonexistent.txt' n'existe pas" +:+ nl] /\
  phase (after ["OPEN nonexistent.txt"]).1 = ASSOCIATED.
Proof. by vm_compute. Qed.

Example test_cmd_rename :
  answers ["CREATE oldname.txt"; "RENAME oldname.txt newname.txt"]
  = ["CREATE_OK oldname.txt" +:+ nl; "RENAME_OK oldname.txt -> newname.txt" +:+ nl] /\
  path_exists (after ["CREATE oldname.txt"; "RENAME oldname.txt newname.txt"]).2
    (filepath root "newname.txt") = true.
Proof. by vm_compute. Qed.

Example test_cmd_delete :
  answers ["CREATE todelete.txt"; "DELETE todelete.txt"]
  = ["CREATE_OK todelete.txt" +:+ nl; "DELETE_OK todelete.txt" +:+ nl] /\
  path_exists (after ["CREATE todelete.txt"; "DELETE todelete.txt"]).2
    (filepath root "todelete.txt") = false.
Proof. by vm_compute. Qed.

Example test_cmd_read_write_close :
  answers ["CREATE readwrite.txt"; "WRITE Hello, world!"; "READ"; "CLOSE"]
  = ["CREATE_OK readwrite.txt" +:+ nl; "WRITE_OK readwrite.txt" +:+ nl;
     "READ_OK" +:+ nl +:+ "=== Contenu du fichier: readwrite.txt ===" +:+ nl
       +:+ "Hello, world!" +:+ nl +:+ "===============================" +:+ nl;
     "CLOSE_OK readwrite.txt" +:+ nl] /\
  open_file (after ["CREATE readwrite.txt"; "WRITE Hello, world!"; "READ"; "CLOSE"]).1 = None.
Proof. by vm_compute. Qed.

(** The integration test: the client uploads a local file to the server. *)
Example test_full_upload :
  let r := Client.upload_file served one_local_file root "/home/u" "notes.txt"
             (initial_state, empty_disk) in
  r.1.1 = [["UPLOAD notes.txt"; "UPLOAD_DATA 48656c6c6f"; "UPLOAD_END"]] /\
  r.1.2 = Client.Success ("UPLOAD_END_OK" +:+ nl) /\
  read_file r.2.2 (filepath root "notes.txt") = Some [x48; x65; x6c; x6c; x6f].
Proof. by vm_compute. Qed.

(** The server already holds the first two bytes: the client sends the rest. *)
Example test_resumed_upload :
  let r := Client.upload_file served one_local_file root "/home/u" "notes.txt"
             (initial_state, (after ["UPLOAD notes.txt"; "UPLOAD_DATA 4865"]).2) in
  r.1.1 = [["UPLOAD notes.txt"; "UPLOAD_DATA 6c6c6f"; "UPLOAD_END"]] /\
  read_file r.2.2 (filepath root "notes.txt") = Some [x48; x65; x6c; x6c; x6f].
Proof. by vm_compute. Qed.

Example test_upload_unreachable :
  let r := Client.upload_file unreachable one_local_file root "/home/u" "notes.txt" () in
  r.1.1 = replicate 5 ["UPLOAD notes.txt"] /\ r.1.2 = Client.Failure.
Proof. by vm_compute. Qed.

Example test_upload_no_local_file :
  let r := Client.upload_file served one_local_file root "/home/u" "other.txt"
             (initial_state, empty_disk) in
  r.1.1 = replicate 5 [] /\ r.1.2 = Client.Failure.
Proof. by vm_compute. Qed.

Example test_blocks :
  map length (Py.read_blocks BLOCK_SIZE (replicate 1100 x00)) = [512; 512; 76].
Proof. by vm_compute. Qed.

(** ** Counterexamples and instances of the theorems *)









(** C7, an instance of the theorem. *)
Lemma download_streams_file_from_offset_witness :
  let d := (after ["UPLOAD f"; "UPLOAD_DATA 414243"; "UPLOAD_END"]).2 in
  handle_line root None "download f 1" initial_state d
  = (["DOWNLOAD_READY f offset=1" +:+ nl; "CHUNK 4243" +:+ nl; "DOWNLOAD_END" +:+ nl],
     initial_state, d) /\
  (handle_line root None "download g 1" initial_state d).1.1
  = ["ERREUR: Le fichier 'g' n'existe pas" +:+ nl].
Proof.
  destruct (download_streams_file_from_offset root "download f 1" "download" "f" ["1"]
              initial_state (after ["UPLOAD f"; "UPLOAD_DATA 414243"; "UPLOAD_END"]).2)
    as (H1 & _); [by vm_compute..|].
  destruct (H1 "1" [] 1%Z [x41; x42; x43]) as (H1' & _); [by vm_compute..|].
  destruct (download_streams_file_from_offset root "download g 1" "download" "g" ["1"]
              initial_state (after ["UPLOAD f"; "UPLOAD_DATA 414243"; "UPLOAD_END"]).2)
    as (_ & H2); [by vm_compute..|].
  destruct (H2 None) as (answer & H2' & _); [by vm_compute|].
  vm_compute. by repeat split.
Defined.

(** C8, an instance of the theorem. *)
Lemma failed_precondition_is_refused_witness :
  gestionnaire_commandes root None "open nothing" initial_state empty_disk
  = ("ERREUR: Le fichier 'nothing' n'existe pas", initial_state, empty_disk) /\
  gestionnaire_commandes root None "frobnicate" initial_state empty_disk
  = ("ERREUR: Commande non reconnue", initial_state, empty_disk).
Proof.
  destruct (failed_precondition_is_refused root None "open nothing" initial_state empty_disk)
    as ((H1 & H2 & H3) & _).
  { apply (open_absent root empty_disk initial_state "open" "nothing" []); by vm_compute. }
  destruct (failed_precondition_is_refused root None "frobnicate" initial_state empty_disk)
    as ((H4 & H5 & H6) & _).
  { apply (unknown_verb root empty_disk initial_state "frobnicate" []).
    intros Hin%list_elem_of_In. vm_compute in Hin. intuition discriminate. }
  by vm_compute.
Defined.

(** C9, counterexample.  The data [a  b], with two spaces, is stored with
    one: the file does not hold the data as given. *)
Lemma write_collapses_blanks :
  answers ["CREATE f"; "WRITE a  b"] = ["CREATE_OK f" +:+ nl; "WRITE_OK f" +:+ nl] /\
  read_file (after ["CREATE f"; "WRITE a  b"]).2 (filepath root "f")
  = Some (Py.encode ("a b" +:+ nl)) /\
  read_file (after ["CREATE f"; "WRITE a  b"]).2 (filepath root "f")
  <> Some (Py.encode ("a  b" +:+ nl)).
Proof. vm_compute. by repeat split. Qed.

(** C9, an instance of the theorem. *)
Lemma write_appends_joined_words_witness :
  let st := (after ["CREATE f"; "WRITE first"]).1 in
  let d := (after ["CREATE f"; "WRITE first"]).2 in
  let r := gestionnaire_commandes root None "write Hello,   world!" st d in
  response r = "WRITE_OK f" /\
  read_file (disk_after r) (filepath root "f")
  = Some (Py.encode ("first" +:+ nl +:+ "Hello, world!" +:+ nl)).
Proof.
  destruct (write_appends_joined_words root "write Hello,   world!" "write"
              ["Hello,"; "world!"] "f"
              (after ["CREATE f"; "WRITE first"]).1 (after ["CREATE f"; "WRITE first"]).2)
    as (H1 & _ & H2); [by vm_compute..|].
  vm_compute in H1, H2 |- *. by repeat split.
Defined.

(** C10, an instance of the theorem. *)
Lemma verb_case_is_ignored_witness :
  let st := (after ["UPLOAD f"; "UPLOAD_DATA 414243"; "UPLOAD_END"]).1 in
  let d := (after ["UPLOAD f"; "UPLOAD_DATA 414243"; "UPLOAD_END"]).2 in
  handle_line root None "download f 0" st d = handle_line root None "DOWNLOAD f 0" st d /\
  handle_line root None " Open  f" st d = handle_line root None "OPEN f" st d.
Proof.
  split.
  - apply (verb_case_is_ignored root None "download f 0" "DOWNLOAD f 0"
             "download" "DOWNLOAD" ["f"; "0"]); by vm_compute.
  - apply (verb_case_is_ignored root None " Open  f" "OPEN f" "Open" "OPEN" ["f"]);
      by vm_compute.
Defined.

(** ** Instances of the further properties *)

(** X2, an instance. *)
Lemma interrupted_until_resumed_witness :
  let st := (after ["UPLOAD f"; "UPLOAD_DATA zz"]).1 in
  let d := (after ["UPLOAD f"; "UPLOAD_DATA zz"]).2 in
  let r := serve root [ok "UPLOAD g"; ok "UPLOAD_DATA 41"; ok "CLOSE"] st d in
  error_flag st = true /\
  error_flag r.1.2 = true /\
  handle_line root None "UPLOAD_END" r.1.2 r.2 = (["UPLOAD_INTERRUPTED" +:+ nl], r.1.2, r.2).
Proof.
  intros st d r.
  destruct (interrupted_until_resumed root [ok "UPLOAD g"; ok "UPLOAD_DATA 41"; ok "CLOSE"]
              st d) as (H1 & _ & H2); [by vm_compute..| |].
  { repeat constructor; by vm_compute. }
  split; [by vm_compute|]. split; [exact H1|exact (H2 None)].
Defined.


(** X5, an instance. *)
Lemma create_write_read_round_trip_witness :
  (serve root [ok "CREATE f"; ok "WRITE Hello,   world!"; ok "READ"]
     (after ["UPLOAD f"; "UPLOAD_DATA 4142"; "UPLOAD_END"]).1
     (after ["UPLOAD f"; "UPLOAD_DATA 4142"; "UPLOAD_END"]).2).1.1
  = ["CREATE_OK f" +:+ nl; "WRITE_OK f" +:+ nl;
     "READ_OK" +:+ nl +:+ "=== Contenu du fichier: f ===" +:+ nl +:+
     "Hello, world!" +:+ nl +:+ "===============================" +:+ nl].
Proof.
  destruct (create_write_read_round_trip root "CREATE f" "WRITE Hello,   world!" "READ"
              "CREATE" "f" [] "WRITE" ["Hello,"; "world!"] "READ" []
              (after ["UPLOAD f"; "UPLOAD_DATA 4142"; "UPLOAD_END"]).1
              (after ["UPLOAD f"; "UPLOAD_DATA 4142"; "UPLOAD_END"]).2)
    as (H & _); [by vm_compute..|].
  etrans; [exact H|by vm_compute].
Defined.





(** X12, an instance. *)
Lemma download_fetches_the_remote_file_witness :
  let p := holding ["UPLOAD f"; "UPLOAD_DATA 414243"; "UPLOAD_END"] in
  let r := Client.download_file (Link.exchange root Client.Closed) "/client/data" 1
             "f" "/home/u" local_disk p in
  r.1.1.1 = ["DOWNLOAD f 2" +:+ nl] /\
  r.1.1.2 = Some Client.Downloaded /\
  read_file r.1.2 "/home/u/f" = Some [x41; x42; x43].
Proof.
  intros p r.
  destruct (download_fetches_the_remote_file root "/client/data" 0 Client.Closed
              "f" "/home/u" [x41; x42; x43] local_disk p)
    as (H1 & H2 & _ & H3 & _); [by vm_compute..|].
  fold r in H1, H2, H3.
  split; [rewrite H1; by vm_compute|]. split; [done|].
  apply H3; by vm_compute.
Defined.

(** X13, an instance. *)
Lemma download_counts_only_exceptions_witness :
  let r := Client.download_file failing_reads "/client/data" 40 "f" "/home/u"
             empty_disk () in
  r.1.1.2 = None /\ length r.1.1.1 = 40.
Proof.
  intros r.
  destruct (proj2 (download_counts_only_exceptions failing_reads "/client/data"
                     "f" "/home/u" empty_disk ())) with (turns := 40) as (H1 & H2 & _).
  { intros request []. eexists _, _, _. split; [done|].
    eexists _, _, _, _, _. split; [done|]. by vm_compute. }
  by split.
Defined.


(** X15, an instance. *)
Lemma download_is_chosen_by_prefix_witness :
  let st := (after ["UPLOAD f"; "UPLOAD_DATA 414243"; "UPLOAD_END"]).1 in
  let d := (after ["UPLOAD f"; "UPLOAD_DATA 414243"; "UPLOAD_END"]).2 in
  handle_line root None "downloads_please f 1" st d = handle_line root None "DOWNLOAD f 1" st d /\
  (handle_line root None "downloads_please f 1" st d).1.1
  = ["DOWNLOAD_READY f offset=1" +:+ nl; "CHUNK 4243" +:+ nl; "DOWNLOAD_END" +:+ nl].
Proof.
  intros st d.
  destruct (download_is_chosen_by_prefix root None "downloads_please f 1" "DOWNLOAD f 1"
              "downloads_please" "DOWNLOAD" ["f"; "1"] st d) as (H & _); [by vm_compute..|].
  split; [exact H|]. rewrite H. by vm_compute.
Defined.


(** X17, an instance. *)
Lemma blocks_are_full_but_the_last_witness :
  Py.read_blocks 2 [x41; x42; x43; x44; x45] = [[x41; x42]; [x43; x44]; [x45]] /\
  forall i chunk,
    Py.read_blocks 2 [x41; x42; x43; x44; x45] !! i = Some chunk -> S i < 3 ->
    length chunk = 2.
Proof.
  split; [by vm_compute|].
  destruct (blocks_are_full_but_the_last 2 [x41; x42; x43; x44; x45]) as (_ & _ & H); [lia|].
  exact H.
Defined.

(** X19, an instance. *)
Lemma chunks_cross_the_wire_witness :
  payload ("UPLOAD_DATA 48656c6c6f" +:+ nl) = Some [x48; x65; x6c; x6c; x6f] /\
  Py.split_maxsplit_1 (Py.strip ("CHUNK 48656c6c6f" +:+ nl)) = ["CHUNK"; "48656c6c6f"].
Proof.
  destruct (chunks_cross_the_wire [x48; x65; x6c; x6c; x6f]) as (H1 & _ & _ & _); [done|].
  split; [exact H1|by vm_compute].
Defined.
